(** * Order-intake bot (main.py): a shallow embedding and its properties

    The program is a python-telegram-bot conversation.  Its handlers mutate
    two module-level dictionaries ([excel_data], [user_data_store]) and the
    per-user dictionary [context.user_data], and they talk to the outside
    world (Bot API calls, one HTTP download, one spreadsheet file).

    The embedding keeps that shape:
    - Python values: [int] is [Z], [str] is [string], a [dict] with string
      keys is a [gmap string _], a product [dict] is an object on a heap and
      is referred to by its address (lists hold addresses, so aliasing is
      visible);
    - a handler is a function in a state-and-exception monad over [World];
      a raised exception keeps every mutation made before it, as in Python;
    - the outside world is an [Env] (how the download and the Bot API answer
      while one update is handled) and a log [outbox] of what was done. *)

From Stdlib Require Import ZArith String Ascii List Bool Lia.
From Stdlib Require Import DecimalString DecimalZ.
From stdpp Require Import base tactics option list gmap strings.

Local Open Scope string_scope.
Local Open Scope Z_scope.

(** ** Python primitives *)

Module Py.

Inductive Exn : Set :=
  | KeyError | IndexError | ValueError | TypeError | AttributeError
  | UnboundLocalError | TelegramError.

Inductive Outcome (A : Type) : Type :=
  | Done (a : A)
  | Raised (e : Exn).
Arguments Done {A} a.
Arguments Raised {A} e.

Definition obind {A B} (o : Outcome A) (k : A → Outcome B) : Outcome B :=
  match o with
  | Done a => k a
  | Raised e => Raised e
  end.

(** [str(z)] for an int. *)
Definition str (z : Z) : string := NilZero.string_of_int (Z.to_int z).

(** [int(s)] for a string: an optional minus sign followed by ASCII digits;
    anything else is a [ValueError].  (Python also accepts a plus sign,
    surrounding blanks and digit-group underscores; none of them occurs in a
    piece cut out of callback data the bot produced itself.) *)
Definition int (s : string) : Outcome Z :=
  match NilZero.int_of_string s with
  | Some d => Done (Z.of_int d)
  | None => Raised ValueError
  end.

(** [s.split(sep)] for a one-character separator. *)
Fixpoint split (sep : ascii) (s : string) : list string :=
  match s with
  | EmptyString => [EmptyString]
  | String c s' =>
      if Ascii.eqb c sep then EmptyString :: split sep s'
      else match split sep s' with
           | p :: ps => String c p :: ps
           | [] => [String c EmptyString]
           end
  end.

(** [l[i]] for a list and a non-negative literal index. *)
Definition item {A} (l : list A) (i : nat) : Outcome A :=
  match l !! i with
  | Some x => Done x
  | None => Raised IndexError
  end.

(** [l[-1]]. *)
Definition last_item {A} (l : list A) : Outcome A :=
  match last l with
  | Some x => Done x
  | None => Raised IndexError
  end.

(** [d[k]] for a dict. *)
Definition getitem {V} (d : gmap string V) (k : string) : Outcome V :=
  match d !! k with
  | Some v => Done v
  | None => Raised KeyError
  end.

(** [range(a, b)]. *)
Definition range (a b : Z) : list Z :=
  map (λ k, a + Z.of_nat k) (seq 0 (Z.to_nat (b - a))).

(** [re.match('^' + p, s)]: [s] starts with [p]. *)
Definition startswith (p s : string) : bool := String.prefix p s.

End Py.

Export Py(Exn(..), Outcome(..)).

(** ** pandas: a sheet read by [read_excel] *)

Module Pandas.

(** Rows of cells; a cell is shown by its text. *)
Definition DataFrame : Type := list (list string).

Definition len (df : DataFrame) : Z := Z.of_nat (length df).

(** [df.iloc[i, j]]: positional access; a negative row counts from the end,
    anything outside the frame is an [IndexError]. *)
Definition iloc (df : DataFrame) (i : Z) (j : nat) : Outcome string :=
  let n := len df in
  if (i <? - n) || (n <=? i) then Raised IndexError
  else
    let k := if i <? 0 then i + n else i in
    match df !! Z.to_nat k with
    | Some row => Py.item row j
    | None => Raised IndexError
    end.

(** [bool(df)], which [not df] evaluates: pandas refuses to give a frame a
    truth value, whatever its size. *)
Definition truth (df : DataFrame) : Outcome bool := Raised ValueError.

(** Every row has at least [k] columns. *)
Definition wide (k : nat) (df : DataFrame) : Prop :=
  Forall (λ row : list string, (k ≤ length row)%nat) df.

End Pandas.

Export Pandas(DataFrame).

(** ** The bot's data *)

(** Conversation states, [range(15)] in the source. *)
Inductive State : Set :=
  | START | NAME | CHOOSE_STORE | SHOP_ID | OWNER_NAME | OWNER_PHONE
  | PRODUCT_IMAGE | PRODUCT_CODE | PRODUCT_COLOR | BADGE_QUANTITY
  | PRODUCT_SIZE_RANGE | PRODUCT_PRICE | CONFIRM_PRODUCT | NEXT_ACTION
  | CHOOSE_RECIPIENT.

#[global] Instance State_eq_dec : EqDecision State.
Proof. solve_decision. Defined.

(** What a handler returns: a state, [ConversationHandler.END], or nothing
    (falling off the end of the function). *)
Inductive Ret : Set :=
  | Goto (s : State)
  | END
  | RetNone.

Definition ITEMS_PER_PAGE : Z := 10.

(** The three sheets, and the cache [excel_data] (each slot starts as
    [None]). *)
Record Sheets : Type := mkSheets {
  sheet0 : DataFrame;
  sheet1 : DataFrame;
  sheet2 : DataFrame
}.

Record ExcelData : Type := mkExcelData {
  stores : option DataFrame;
  colors : option DataFrame;
  recipients : option DataFrame
}.

Definition excel_data_init : ExcelData := mkExcelData None None None.

(** A product [dict]; products live on the heap. *)
Definition Product : Type := gmap string string.
Definition loc : Set := nat.

(** [user_data_store[user_id]]: the text fields under their keys, and the
    ['products'] list (absent until first set), which holds addresses. *)
Record Session : Type := mkSession {
  fields : gmap string string;
  products : option (list loc)
}.

Definition session_empty : Session := mkSession ∅ None.

(** One row of the order table: column name and value, in column order. *)
Definition OrderRow : Type := list (string * string).

(** [context.user_data] of one user: a [dict] that lives as long as the
    process and starts empty. *)
Record Ctx : Type := mkCtx {
  stores_page : option Z;
  colors_page : option Z;
  recipients_page : option Z;
  current_product : option loc;
  order_dataframe : option (list OrderRow)
}.

Definition ctx_empty : Ctx := mkCtx None None None None None.

(** Keyboards. *)
Record InlineKeyboardButton : Type := mkButton {
  text : string;
  callback_data : string
}.

Inductive Markup : Type :=
  | NoMarkup
  | InlineKeyboardMarkup (keyboard : list (list InlineKeyboardButton))
  | ReplyKeyboardMarkup (keyboard : list (list string)).

(** What the bot does to the outside world, in the order it does it. *)
Inductive Effect : Type :=
  | requests_get
  | answer (chat : Z)
  | get_file (chat : Z)
  | reply_text (chat : Z) (msg : string) (markup : Markup)
  | reply_photo (chat : Z) (photo : string) (caption : string) (markup : Markup)
  | edit_message_text (chat : Z) (msg : string) (markup : Markup)
  | delete_message (chat : Z)
  | send_message (chat : Z) (msg : string) (markup : Markup)
  | send_document (chat : Z) (document : list OrderRow) (caption : string)
  | to_excel (filename : string) (df : list OrderRow).

(** How the outside world answers while one update is handled: what the
    download and parse of the workbook yields ([None]: any exception inside
    the [try] of [load_excel_data]), and which chats the Bot API can reach
    (a call addressed to another chat raises). *)
Record Env : Type := mkEnv {
  download : option Sheets;
  reachable : Z → bool
}.

Record World : Type := mkWorld {
  excel_data : ExcelData;
  user_data_store : gmap Z Session;
  user_data : gmap Z Ctx;
  heap : list Product;
  files : gmap string (list OrderRow);
  conversations : gmap Z State;
  outbox : list Effect
}.

Definition world_init : World :=
  mkWorld excel_data_init ∅ ∅ [] ∅ ∅ [].

Definition ctx_of (w : World) (user_id : Z) : Ctx :=
  default ctx_empty (user_data w !! user_id).

Definition deref (w : World) (l : loc) : Product :=
  default ∅ (heap w !! l).

(** ** The handler monad: state and exceptions *)

Definition M (A : Type) : Type := World → Outcome A * World.

Definition ret {A} (a : A) : M A := λ w, (Done a, w).

Definition bind {A B} (m : M A) (k : A → M B) : M B := λ w,
  match m w with
  | (Done a, w') => k a w'
  | (Raised e, w') => (Raised e, w')
  end.

Declare Scope M_scope.
Delimit Scope M_scope with M.
Bind Scope M_scope with M.
Notation "x ← y ; z" := (bind y (λ x, z))
  (at level 20, y at level 100, z at level 200, only parsing) : M_scope.
Notation "y ;; z" := (bind y (λ _, z))
  (at level 100, z at level 200, only parsing, right associativity) : M_scope.
Local Open Scope M_scope.

Definition raise {A} (e : Exn) : M A := λ w, (Raised e, w).

Definition lift {A} (o : Outcome A) : M A := λ w, (o, w).

(** [try: body / except Exception: handler]. *)
Definition try_except {A} (body : M A) (handler : M A) : M A := λ w,
  match body w with
  | (Done a, w') => (Done a, w')
  | (Raised _, w') => handler w'
  end.

Definition get : M World := λ w, (Done w, w).
Definition modify (f : World → World) : M unit := λ w, (Done tt, f w).

Definition log (e : Effect) : World → World := λ w,
  mkWorld (excel_data w) (user_data_store w) (user_data w) (heap w)
          (files w) (conversations w) (outbox w ++ [e])%list.

(** A Bot API call addressed to [chat]. *)
Definition api (env : Env) (chat : Z) (e : Effect) : M unit := λ w,
  if reachable env chat then (Done tt, log e w) else (Raised TelegramError, w).

Definition set_excel_data (d : ExcelData) : World → World := λ w,
  mkWorld d (user_data_store w) (user_data w) (heap w)
          (files w) (conversations w) (outbox w).

Definition set_user_data_store (s : gmap Z Session) : World → World := λ w,
  mkWorld (excel_data w) s (user_data w) (heap w)
          (files w) (conversations w) (outbox w).

Definition set_user_data (c : gmap Z Ctx) : World → World := λ w,
  mkWorld (excel_data w) (user_data_store w) c (heap w)
          (files w) (conversations w) (outbox w).

Definition set_heap (h : list Product) : World → World := λ w,
  mkWorld (excel_data w) (user_data_store w) (user_data w) h
          (files w) (conversations w) (outbox w).

Definition set_files (f : gmap string (list OrderRow)) : World → World := λ w,
  mkWorld (excel_data w) (user_data_store w) (user_data w) (heap w)
          f (conversations w) (outbox w).

Definition set_conversations (c : gmap Z State) : World → World := λ w,
  mkWorld (excel_data w) (user_data_store w) (user_data w) (heap w)
          (files w) c (outbox w).

(** [user_data_store[user_id]], a [KeyError] when the user has no entry. *)
Definition session (user_id : Z) : M Session := λ w,
  match user_data_store w !! user_id with
  | Some s => (Done s, w)
  | None => (Raised KeyError, w)
  end.

Definition put_session (user_id : Z) (s : Session) : M unit :=
  modify (λ w, set_user_data_store (<[user_id := s]> (user_data_store w)) w).

(** [user_data_store[user_id][key] = value]. *)
Definition set_field (user_id : Z) (key value : string) : M unit :=
  s ← session user_id;
  put_session user_id (mkSession (<[key := value]> (fields s)) (products s)).

(** [user_data_store[user_id][key]]. *)
Definition field (user_id : Z) (key : string) : M string :=
  s ← session user_id; lift (Py.getitem (fields s) key).

(** [user_data_store[user_id]['products']]. *)
Definition session_products (user_id : Z) : M (list loc) :=
  s ← session user_id;
  match products s with
  | Some ps => ret ps
  | None => raise KeyError
  end.

Definition ctx (user_id : Z) : M Ctx := λ w, (Done (ctx_of w user_id), w).

Definition put_ctx (user_id : Z) (c : Ctx) : M unit :=
  modify (λ w, set_user_data (<[user_id := c]> (user_data w)) w).

(** A new [dict] object with the given content. *)
Definition new_dict (d : Product) : M loc := λ w,
  (Done (length (heap w)), set_heap (heap w ++ [d])%list w).

(** [context.user_data['current_product']]. *)
Definition the_current_product (user_id : Z) : M loc :=
  c ← ctx user_id;
  match current_product c with
  | Some l => ret l
  | None => raise KeyError
  end.

(** [context.user_data['current_product'] = l]. *)
Definition set_current_product (user_id : Z) (l : loc) : M unit :=
  c ← ctx user_id;
  put_ctx user_id (mkCtx (stores_page c) (colors_page c) (recipients_page c)
                         (Some l) (order_dataframe c)).

(** [context.user_data['current_product'][key] = value]: the object the
    reference points to is updated in place. *)
Definition set_product_field (user_id : Z) (key value : string) : M unit :=
  l ← the_current_product user_id;
  modify (λ w, set_heap (<[l := <[key := value]> (deref w l)]> (heap w)) w).

Declare Scope outcome_scope.
Delimit Scope outcome_scope with O.
Notation "x ← y ; z" := (Py.obind y (λ x, z))
  (at level 20, y at level 100, z at level 200, only parsing) : outcome_scope.

(** ** The paginated menus

    [show_stores_page], [show_colors_page] and [show_recipients_page] are
    three copies of one function; they differ in the cache slot, the page
    key, the texts, and in that the recipients copy also reads column 1 of
    each row and ends the keyboard with a skip button. *)

Inductive Kind : Set := Stores | Colors | Recipients.

Definition token (k : Kind) : string :=
  match k with
  | Stores => "store"
  | Colors => "color"
  | Recipients => "recipient"
  end.

Definition prompt (k : Kind) : string :=
  match k with
  | Stores => "Please select a store/market"
  | Colors => "Please select a product color"
  | Recipients => "Please select a recipient"
  end.

Definition slot (k : Kind) (d : ExcelData) : option DataFrame :=
  match k with
  | Stores => stores d
  | Colors => colors d
  | Recipients => recipients d
  end.

Definition page_of (k : Kind) (c : Ctx) : option Z :=
  match k with
  | Stores => stores_page c
  | Colors => colors_page c
  | Recipients => recipients_page c
  end.

Definition with_page (k : Kind) (p : option Z) (c : Ctx) : Ctx :=
  match k with
  | Stores =>
      mkCtx p (colors_page c) (recipients_page c)
            (current_product c) (order_dataframe c)
  | Colors =>
      mkCtx (stores_page c) p (recipients_page c)
            (current_product c) (order_dataframe c)
  | Recipients =>
      mkCtx (stores_page c) (colors_page c) p
            (current_product c) (order_dataframe c)
  end.

(** [context.user_data['<kind>s_page'] = p]. *)
Definition set_page (k : Kind) (user_id : Z) (p : Z) : M unit :=
  c ← ctx user_id; put_ctx user_id (with_page k (Some p) c).

(** [context.user_data['<kind>s_page'] += d]. *)
Definition bump_page (k : Kind) (user_id : Z) (d : Z) : M unit :=
  c ← ctx user_id;
  match page_of k c with
  | Some p => put_ctx user_id (with_page k (Some (p + d)) c)
  | None => raise KeyError
  end.

(** [(total + ITEMS_PER_PAGE - 1) // ITEMS_PER_PAGE]. *)
Definition total_pages (total : Z) : Z :=
  (total + ITEMS_PER_PAGE - 1) `div` ITEMS_PER_PAGE.

Definition start_idx (current_page : Z) : Z := current_page * ITEMS_PER_PAGE.

Definition end_idx (current_page total : Z) : Z :=
  Z.min (start_idx current_page + ITEMS_PER_PAGE) total.

(** The loop over [range(start_idx, end_idx)]: one keyboard row per index. *)
Fixpoint item_rows (k : Kind) (df : DataFrame) (indices : list Z)
  : Outcome (list (list InlineKeyboardButton)) :=
  match indices with
  | [] => Done []
  | index :: rest =>
      (name ← Pandas.iloc df index 0;
       _ ← match k with
           | Recipients => Pandas.iloc df index 1
           | _ => Done name
           end;
       rows ← item_rows k df rest;
       Done ([mkButton name (token k ++ "_" ++ Py.str index)] :: rows))%O
  end.

Definition has_prev (current_page : Z) : bool := 0 <? current_page.

Definition has_next (current_page total : Z) : bool :=
  current_page <? total_pages total - 1.

Definition nav_buttons (k : Kind) (current_page total : Z)
  : list InlineKeyboardButton :=
  ((if has_prev current_page
    then [mkButton "⬅️ Previous" (token k ++ "_prev_page")] else [])
   ++
   (if has_next current_page total
    then [mkButton "Next ➡️" (token k ++ "_next_page")] else []))%list.

Definition skip_row (k : Kind) : list (list InlineKeyboardButton) :=
  match k with
  | Recipients => [[mkButton "Skip - Send only to me" "recipient_skip"]]
  | _ => []
  end.

Definition page_text (k : Kind) (current_page total : Z) : string :=
  prompt k ++ " (Page " ++ Py.str (current_page + 1) ++ "/"
           ++ Py.str (total_pages total) ++ "):".

(** The keyboard of one page. *)
Definition page_keyboard (k : Kind) (df : DataFrame) (current_page : Z)
  : Outcome (list (list InlineKeyboardButton)) :=
  let total := Pandas.len df in
  (rows ← item_rows k df
            (Py.range (start_idx current_page) (end_idx current_page total));
   let nav := nav_buttons k current_page total in
   Done (rows ++ (match nav with [] => [] | _ => [nav] end)
              ++ skip_row k)%list)%O.

(** [callback_query] tells whether the update being handled is a button
    press (the menu message is edited) or a message (a new one is sent). *)
Definition show_page (k : Kind) (env : Env) (user_id : Z)
    (callback_query : bool) : M unit :=
  c ← ctx user_id;
  let current_page := default 0 (page_of k c) in
  w ← get;
  df ← match slot k (excel_data w) with
       | Some df => ret df
       | None => raise TypeError
       end;
  keyboard ← lift (page_keyboard k df current_page);
  let msg := page_text k current_page (Pandas.len df) in
  if callback_query
  then api env user_id
           (edit_message_text user_id msg (InlineKeyboardMarkup keyboard))
  else api env user_id
           (reply_text user_id msg (InlineKeyboardMarkup keyboard)).

Definition show_stores_page := show_page Stores.
Definition show_colors_page := show_page Colors.
Definition show_recipients_page := show_page Recipients.

(** The head of the three choice handlers: the two navigation tokens move
    the page and redraw; [None] means the token is not a navigation one. *)
Definition navigate (k : Kind) (env : Env) (user_id : Z) (data : string)
    (same : State) : option (M Ret) :=
  if String.eqb data (token k ++ "_prev_page") then
    Some (bump_page k user_id (-1);; show_page k env user_id true;;
          ret (Goto same))
  else if String.eqb data (token k ++ "_next_page") then
    Some (bump_page k user_id 1;; show_page k env user_id true;;
          ret (Goto same))
  else None.

(** [int(query.data.split('_')[1])]. *)
Definition token_index (data : string) : Outcome Z :=
  (piece ← Py.item (Py.split "_" data) 1; Py.int piece)%O.

(** ** The handlers

    A handler takes the fields of the update it reads: the user id, and the
    message text, the photo sizes or the callback data. *)

Definition nl : string := String (ascii_of_nat 10) EmptyString.

(** [load_excel_data]: the cache is written only after the download and the
    three reads went through; any exception is caught and gives [False]. *)
Definition load_excel_data (env : Env) : M bool :=
  modify (log requests_get);;
  match download env with
  | Some sheets =>
      modify (set_excel_data
                (mkExcelData (Some (sheet0 sheets)) (Some (sheet1 sheets))
                             (Some (sheet2 sheets))));;
      ret true
  | None => ret false
  end.

Definition start (env : Env) (user_id : Z) : M Ret :=
  put_session user_id session_empty;;
  api env user_id
      (reply_text user_id "Welcome to the Indenim Bot! Please enter your name:"
                  NoMarkup);;
  ret (Goto NAME).

(** Truth value of a cache slot: [None] is false, a frame has none. *)
Definition slot_truth (v : option DataFrame) : Outcome bool :=
  match v with
  | None => Done false
  | Some df => Pandas.truth df
  end.

(** [not v or v is None], evaluated left to right. *)
Definition not_loaded (v : option DataFrame) : Outcome bool :=
  (t ← slot_truth v;
   if negb t then Done true
   else Done (match v with None => true | Some _ => false end))%O.

Definition process_name (env : Env) (user_id : Z) (message_text : string)
  : M Ret :=
  set_field user_id "name" message_text;;
  api env user_id
      (reply_text user_id "Loading store data, please wait..." NoMarkup);;
  w ← get;
  missing ← lift (not_loaded (stores (excel_data w)));
  let continue : M Ret :=
    set_page Stores user_id 0;;
    show_stores_page env user_id false;;
    ret (Goto CHOOSE_STORE) in
  if missing then
    success ← load_excel_data env;
    if negb success then
      api env user_id
          (reply_text user_id
             "Failed to load store data. Please try again later." NoMarkup);;
      ret END
    else continue
  else continue.

Definition store_choice (env : Env) (user_id : Z) (data : string) : M Ret :=
  api env user_id (answer user_id);;
  match navigate Stores env user_id data CHOOSE_STORE with
  | Some nav => nav
  | None =>
      store_index ← lift (token_index data);
      w ← get;
      df ← match stores (excel_data w) with
           | Some df => ret df
           | None => raise AttributeError
           end;
      store_name ← lift (Pandas.iloc df store_index 0);
      set_field user_id "store" store_name;;
      api env user_id
          (edit_message_text user_id
             ("Selected store: " ++ store_name ++ nl ++ nl
              ++ "Please enter the shop ID:") NoMarkup);;
      ret (Goto SHOP_ID)
  end.

Definition process_shop_id (env : Env) (user_id : Z) (message_text : string)
  : M Ret :=
  set_field user_id "shop_id" message_text;;
  api env user_id
      (reply_text user_id "Please enter the name of the shop owner:" NoMarkup);;
  ret (Goto OWNER_NAME).

Definition process_owner_name (env : Env) (user_id : Z)
    (message_text : string) : M Ret :=
  set_field user_id "owner_name" message_text;;
  api env user_id
      (reply_text user_id "Please enter the phone number of the shop owner:"
                  NoMarkup);;
  ret (Goto OWNER_PHONE).

(** [if 'products' not in user_data_store[user_id]: ... = []]. *)
Definition init_products (user_id : Z) : M unit :=
  s ← session user_id;
  match products s with
  | Some _ => ret tt
  | None => put_session user_id (mkSession (fields s) (Some []))
  end.

Definition process_owner_phone (env : Env) (user_id : Z)
    (message_text : string) : M Ret :=
  set_field user_id "owner_phone" message_text;;
  init_products user_id;;
  api env user_id
      (reply_text user_id
         "Now let's add products. Please send a product image:" NoMarkup);;
  ret (Goto PRODUCT_IMAGE).

(** [message_photo]: the sizes of the photo, by file id; the last one is the
    largest. *)
Definition process_product_image (env : Env) (user_id : Z)
    (message_photo : list string) : M Ret :=
  current_product ← new_dict ∅;
  largest ← lift (Py.last_item message_photo);
  api env user_id (get_file user_id);;
  let file_id := largest in
  modify (λ w, set_heap (<[current_product :=
                             <["image_file_id" := file_id]>
                               (deref w current_product)]> (heap w)) w);;
  set_current_product user_id current_product;;
  api env user_id
      (reply_text user_id "Please enter the product code:" NoMarkup);;
  ret (Goto PRODUCT_CODE).

Definition process_product_code (env : Env) (user_id : Z)
    (message_text : string) : M Ret :=
  set_product_field user_id "code" message_text;;
  set_page Colors user_id 0;;
  show_colors_page env user_id false;;
  ret (Goto PRODUCT_COLOR).

Definition color_choice (env : Env) (user_id : Z) (data : string) : M Ret :=
  api env user_id (answer user_id);;
  match navigate Colors env user_id data PRODUCT_COLOR with
  | Some nav => nav
  | None =>
      color_index ← lift (token_index data);
      w ← get;
      df ← match colors (excel_data w) with
           | Some df => ret df
           | None => raise AttributeError
           end;
      color_name ← lift (Pandas.iloc df color_index 0);
      set_product_field user_id "color" color_name;;
      api env user_id
          (edit_message_text user_id
             ("Selected color: " ++ color_name ++ nl ++ nl
              ++ "Please enter the badge quantity:") NoMarkup);;
      ret (Goto BADGE_QUANTITY)
  end.

Definition process_badge_quantity (env : Env) (user_id : Z)
    (message_text : string) : M Ret :=
  set_product_field user_id "badge_quantity" message_text;;
  api env user_id
      (reply_text user_id "Please enter the product size range:" NoMarkup);;
  ret (Goto PRODUCT_SIZE_RANGE).

Definition process_size_range (env : Env) (user_id : Z)
    (message_text : string) : M Ret :=
  set_product_field user_id "size_range" message_text;;
  api env user_id
      (reply_text user_id "Please enter the product price:" NoMarkup);;
  ret (Goto PRODUCT_PRICE).

Definition confirmation_message (code color badge size price : string)
  : string :=
  "*Product Details:*" ++ nl ++ nl
  ++ "📝 *Code:* " ++ code ++ nl
  ++ "🎨 *Color:* " ++ color ++ nl
  ++ "🏷️ *Badge Quantity:* " ++ badge ++ nl
  ++ "📏 *Size Range:* " ++ size ++ nl
  ++ "💰 *Price:* " ++ price ++ nl ++ nl
  ++ "Is this information correct?".

Definition yes_no_keyboard : Markup :=
  InlineKeyboardMarkup
    [[mkButton "✅ Yes" "confirm_yes"; mkButton "❌ No" "confirm_no"]].

Definition process_price (env : Env) (user_id : Z) (message_text : string)
  : M Ret :=
  set_product_field user_id "price" message_text;;
  l ← the_current_product user_id;
  w ← get;
  let product := deref w l in
  code ← lift (Py.getitem product "code");
  color ← lift (Py.getitem product "color");
  badge ← lift (Py.getitem product "badge_quantity");
  size ← lift (Py.getitem product "size_range");
  price ← lift (Py.getitem product "price");
  let msg := confirmation_message code color badge size price in
  match product !! "image_file_id" with
  | Some photo =>
      api env user_id (reply_photo user_id photo msg yes_no_keyboard)
  | None =>
      api env user_id (reply_text user_id msg yes_no_keyboard)
  end;;
  ret (Goto CONFIRM_PRODUCT).

Definition next_action_keyboard : Markup :=
  ReplyKeyboardMarkup
    [["Add same product with different color"];
     ["Add new product"];
     ["Save to file"]].

Definition edit_keyboard : Markup :=
  InlineKeyboardMarkup
    [[mkButton "Change Color" "edit_color"];
     [mkButton "Start New Product" "edit_new"]].

(** [user_data_store[user_id]['products'].append(l)]. *)
Definition append_product (user_id : Z) (l : loc) : M unit :=
  s ← session user_id;
  match products s with
  | Some ps => put_session user_id (mkSession (fields s) (Some (ps ++ [l])%list))
  | None => raise KeyError
  end.

(** Reading a local variable that no statement of the branch taken has
    assigned. *)
Definition unassigned_local {A} : M A := raise UnboundLocalError.

Definition confirm_product (env : Env) (user_id : Z) (data : string)
  : M Ret :=
  api env user_id (answer user_id);;
  if String.eqb data "confirm_yes" then
    init_products user_id;;
    l ← the_current_product user_id;
    append_product user_id l;;
    fresh ← new_dict ∅;
    set_current_product user_id fresh;;
    api env user_id (delete_message user_id);;
    api env user_id
        (send_message user_id "What would you like to do next?"
                      next_action_keyboard);;
    ret (Goto NEXT_ACTION)
  else if String.eqb data "confirm_no" then
    api env user_id (delete_message user_id);;
    api env user_id
        (send_message user_id "What would you like to change?" edit_keyboard);;
    ret (Goto CONFIRM_PRODUCT)
  else if String.eqb data "edit_color" then
    set_page Colors user_id 0;;
    show_colors_page env user_id true;;
    ret (Goto PRODUCT_COLOR)
  else if String.eqb data "edit_new" then
    fresh ← new_dict ∅;
    set_current_product user_id fresh;;
    api env user_id (delete_message user_id);;
    (* [reply_markup] is assigned in the first two branches only *)
    reply_markup ← unassigned_local;
    api env user_id
        (send_message user_id
           "Let's add a new product. Please send a product image:"
           reply_markup);;
    ret (Goto PRODUCT_IMAGE)
  else ret RetNone.

(** One row of the order table, for the product at [l]. *)
Definition order_row (user_id : Z) (l : loc) : M OrderRow :=
  w ← get;
  let product := deref w l in
  name ← field user_id "name";
  store ← field user_id "store";
  shop_id ← field user_id "shop_id";
  owner_name ← field user_id "owner_name";
  owner_phone ← field user_id "owner_phone";
  code ← lift (Py.getitem product "code");
  color ← lift (Py.getitem product "color");
  badge ← lift (Py.getitem product "badge_quantity");
  size ← lift (Py.getitem product "size_range");
  price ← lift (Py.getitem product "price");
  image ← lift (Py.getitem product "image_file_id");
  ret [("User Name", name); ("Store", store); ("Shop ID", shop_id);
       ("Owner Name", owner_name); ("Owner Phone", owner_phone);
       ("Product Code", code); ("Product Color", color);
       ("Badge Quantity", badge); ("Size Range", size); ("Price", price);
       ("Image File ID", image)].

(** [for product in products_data: data.append({...})]. *)
Fixpoint order_rows (user_id : Z) (products_data : list loc)
  : M (list OrderRow) :=
  match products_data with
  | [] => ret []
  | l :: rest =>
      row ← order_row user_id l;
      rows ← order_rows user_id rest;
      ret (row :: rows)
  end.

(** [context.user_data['order_dataframe'] = df]. *)
Definition set_order_dataframe (user_id : Z) (df : list OrderRow) : M unit :=
  c ← ctx user_id;
  put_ctx user_id (mkCtx (stores_page c) (colors_page c) (recipients_page c)
                         (current_product c) (Some df)).

Definition process_next_action (env : Env) (user_id : Z)
    (message_text : string) : M Ret :=
  if String.eqb message_text "Add same product with different color" then
    ps ← session_products user_id;
    l ← lift (Py.last_item ps);
    w ← get;
    last_product ← new_dict (deref w l);
    w ← get;
    let copy := deref w last_product in
    image ← lift (Py.getitem copy "image_file_id");
    code ← lift (Py.getitem copy "code");
    badge ← lift (Py.getitem copy "badge_quantity");
    size ← lift (Py.getitem copy "size_range");
    price ← lift (Py.getitem copy "price");
    fresh ← new_dict (<["image_file_id" := image]>
                       (<["code" := code]>
                         (<["badge_quantity" := badge]>
                           (<["size_range" := size]>
                             (<["price" := price]> ∅)))));
    set_current_product user_id fresh;;
    set_page Colors user_id 0;;
    show_colors_page env user_id false;;
    ret (Goto PRODUCT_COLOR)
  else if String.eqb message_text "Add new product" then
    api env user_id
        (reply_text user_id "Please send a product image:" NoMarkup);;
    ret (Goto PRODUCT_IMAGE)
  else if String.eqb message_text "Save to file" then
    products_data ← session_products user_id;
    df ← order_rows user_id products_data;
    set_order_dataframe user_id df;;
    set_page Recipients user_id 0;;
    api env user_id
        (reply_text user_id "Please select a recipient for this order:"
                    NoMarkup);;
    show_recipients_page env user_id false;;
    ret (Goto CHOOSE_RECIPIENT)
  else ret RetNone.

(** [df.to_excel(output_filename, index=False)]. *)
Definition write_excel (filename : string) (df : list OrderRow) : M unit :=
  modify (λ w, log (to_excel filename df)
                   (set_files (<[filename := df]> (files w)) w)).

(** [open(filename, 'rb')] of a file written before. *)
Definition open_file (filename : string) : M (list OrderRow) :=
  w ← get; ret (default [] (files w !! filename)).

(** [user_data_store.pop(user_id, None)]. *)
Definition pop_session (user_id : Z) : M unit :=
  modify (λ w, set_user_data_store (delete user_id (user_data_store w)) w).

(** The body of the [try] in [recipient_choice]. *)
Definition forward_to_recipient (env : Env) (user_id : Z)
    (output_filename recipient_name recipient_id : string) : M unit :=
  document ← open_file output_filename;
  chat_id ← lift (Py.int recipient_id);
  name ← field user_id "name";
  store ← field user_id "store";
  api env chat_id
      (send_document chat_id document
         ("New order from " ++ name ++ " for " ++ store));;
  api env user_id
      (send_message user_id
         ("Order has been sent to " ++ recipient_name ++ ".") NoMarkup).

Definition recipient_choice (env : Env) (user_id : Z) (data : string)
  : M Ret :=
  api env user_id (answer user_id);;
  match navigate Recipients env user_id data CHOOSE_RECIPIENT with
  | Some nav => nav
  | None =>
      c ← ctx user_id;
      df ← match order_dataframe c with
           | Some df => ret df
           | None => raise KeyError
           end;
      let output_filename := "order_" ++ Py.str user_id ++ ".xlsx" in
      write_excel output_filename df;;
      document ← open_file output_filename;
      api env user_id (delete_message user_id);;
      api env user_id
          (send_document user_id document "Here is your order file.");;
      (if negb (String.eqb data "recipient_skip") then
         recipient_index ← lift (token_index data);
         w ← get;
         sheet ← match recipients (excel_data w) with
                 | Some sheet => ret sheet
                 | None => raise AttributeError
                 end;
         recipient_name ← lift (Pandas.iloc sheet recipient_index 0);
         recipient_id ← lift (Pandas.iloc sheet recipient_index 1);
         try_except
           (forward_to_recipient env user_id output_filename
                                 recipient_name recipient_id)
           (api env user_id
                (send_message user_id
                   ("Could not send the file to " ++ recipient_name
                    ++ ". Please forward it manually.") NoMarkup))
       else ret tt);;
      pop_session user_id;;
      api env user_id
          (send_message user_id
             "Thank you! Your order has been saved. Type /start to place a new order."
             NoMarkup);;
      ret END
  end.

Definition cancel (env : Env) (user_id : Z) : M Ret :=
  pop_session user_id;;
  api env user_id
      (reply_text user_id "Operation cancelled. Type /start to begin again."
                  NoMarkup);;
  ret END.

(** ** The conversation handler

    [ConversationHandler] of python-telegram-bot, as [main] configures it:
    one conversation per user; a user without a conversation is offered the
    entry point only; a user in state [s] is offered the handlers of [s] and
    then the fallbacks; an update no handler accepts is dropped.  The state
    becomes what the handler returns ([END] forgets the conversation, no
    return value keeps the state) and stays as it was when the handler
    raises. *)

Inductive Payload : Type :=
  | Command (name : string)
  | TextMessage (message_text : string)
  | PhotoMessage (message_photo : list string)
  | CallbackQuery (data : string).

Record Update : Type := mkUpdate {
  effective_user : Z;
  payload : Payload
}.

Definition entry_points (env : Env) (user_id : Z) (p : Payload)
  : option (M Ret) :=
  match p with
  | Command name =>
      if String.eqb name "start" then Some (start env user_id) else None
  | _ => None
  end.

Definition states (env : Env) (s : State) (user_id : Z) (p : Payload)
  : option (M Ret) :=
  match s, p with
  | NAME, TextMessage t => Some (process_name env user_id t)
  | CHOOSE_STORE, CallbackQuery d =>
      if Py.startswith "store_" d
      then Some (store_choice env user_id d) else None
  | SHOP_ID, TextMessage t => Some (process_shop_id env user_id t)
  | OWNER_NAME, TextMessage t => Some (process_owner_name env user_id t)
  | OWNER_PHONE, TextMessage t => Some (process_owner_phone env user_id t)
  | PRODUCT_IMAGE, PhotoMessage (_ :: _ as sizes) =>
      Some (process_product_image env user_id sizes)
  | PRODUCT_CODE, TextMessage t => Some (process_product_code env user_id t)
  | PRODUCT_COLOR, CallbackQuery d =>
      if Py.startswith "color_" d
      then Some (color_choice env user_id d) else None
  | BADGE_QUANTITY, TextMessage t =>
      Some (process_badge_quantity env user_id t)
  | PRODUCT_SIZE_RANGE, TextMessage t =>
      Some (process_size_range env user_id t)
  | PRODUCT_PRICE, TextMessage t => Some (process_price env user_id t)
  | CONFIRM_PRODUCT, CallbackQuery d =>
      if Py.startswith "confirm_" d || Py.startswith "edit_" d
      then Some (confirm_product env user_id d) else None
  | NEXT_ACTION, TextMessage t => Some (process_next_action env user_id t)
  | CHOOSE_RECIPIENT, CallbackQuery d =>
      if Py.startswith "recipient_" d
      then Some (recipient_choice env user_id d) else None
  | _, _ => None
  end.

Definition fallbacks (env : Env) (user_id : Z) (p : Payload)
  : option (M Ret) :=
  match p with
  | Command name =>
      if String.eqb name "cancel" then Some (cancel env user_id) else None
  | _ => None
  end.

(** Run the chosen handler and record the state it returns. *)
Definition handle (user_id : Z) (handler : M Ret) (w : World) : World :=
  match handler w with
  | (Done (Goto s), w') =>
      set_conversations (<[user_id := s]> (conversations w')) w'
  | (Done END, w') =>
      set_conversations (delete user_id (conversations w')) w'
  | (Done RetNone, w') => w'
  | (Raised _, w') => w'
  end.

Definition find_handler (env : Env) (w : World) (u : Update)
  : option (M Ret) :=
  let user_id := effective_user u in
  match conversations w !! user_id with
  | None => entry_points env user_id (payload u)
  | Some s =>
      match states env s user_id (payload u) with
      | Some h => Some h
      | None => fallbacks env user_id (payload u)
      end
  end.

Definition process_update (env : Env) (u : Update) (w : World) : World :=
  match find_handler env w u with
  | Some h => handle (effective_user u) h w
  | None => w
  end.

(** The updates of one process, each with the environment it meets. *)
Fixpoint run (events : list (Env * Update)) (w : World) : World :=
  match events with
  | [] => w
  | (env, u) :: rest => run rest (process_update env u w)
  end.

(** ** Vocabulary of the statements *)

(** The page bound of the data model: [0 <= page < max(total_pages, 1)]. *)
Definition valid_page (current_page total : Z) : Prop :=
  0 ≤ current_page < Z.max (total_pages total) 1.

(** The choice handler of a list, the state it serves, and where a
    selection leads ([None]: the conversation is over). *)
Definition choice (k : Kind) : Env → Z → string → M Ret :=
  match k with
  | Stores => store_choice
  | Colors => color_choice
  | Recipients => recipient_choice
  end.

Definition choice_state (k : Kind) : State :=
  match k with
  | Stores => CHOOSE_STORE
  | Colors => PRODUCT_COLOR
  | Recipients => CHOOSE_RECIPIENT
  end.

Definition after_choice (k : Kind) : option State :=
  match k with
  | Stores => Some SHOP_ID
  | Colors => Some BADGE_QUANTITY
  | Recipients => None
  end.

Definition prev_token (k : Kind) : string := token k ++ "_prev_page".
Definition next_token (k : Kind) : string := token k ++ "_next_page".

(** The token of row [i], as the menus write it. *)
Definition row_token (k : Kind) (i : Z) : string :=
  token k ++ "_" ++ Py.str i.

(** Columns a menu reads from each row. *)
Definition columns (k : Kind) : nat :=
  match k with
  | Recipients => 2%nat
  | _ => 1%nat
  end.

(** A selection: callback data of the list that is no navigation token and
    either carries an index or is the recipients' skip action. *)
Definition selection (k : Kind) (data : string) : Prop :=
  Py.startswith (token k ++ "_") data = true
  ∧ data ≠ prev_token k ∧ data ≠ next_token k
  ∧ ((∃ i, token_index data = Done i)
     ∨ (k = Recipients ∧ data = "recipient_skip")).

(** The keys a colour variant takes over from the last product. *)
Definition cloned_keys : list string :=
  ["image_file_id"; "code"; "badge_quantity"; "size_range"; "price"].

(** The keys of a complete product. *)
Definition product_keys : list string :=
  ["image_file_id"; "code"; "color"; "badge_quantity"; "size_range"; "price"].

(** A product with every field set. *)
Definition complete (d : Product) : Prop :=
  ∀ key, key ∈ product_keys → is_Some (d !! key).

(** The world with the three page indices of one user replaced. *)
Definition repaged (user_id : Z) (p_stores p_colors p_recipients : option Z)
    (w : World) : World :=
  set_user_data
    (<[user_id := mkCtx p_stores p_colors p_recipients
                        (current_product (ctx_of w user_id))
                        (order_dataframe (ctx_of w user_id))]> (user_data w))
    w.

(** What a selection needs besides the loaded list: a session to write the
    store to, a draft to write the colour to, an order table to send. *)
Definition ready (k : Kind) (user_id : Z) (w : World) : Prop :=
  match k with
  | Stores => is_Some (user_data_store w !! user_id)
  | Colors =>
      ∃ l, current_product (ctx_of w user_id) = Some l
           ∧ (l < length (heap w))%nat
  | Recipients => is_Some (order_dataframe (ctx_of w user_id))
  end.

(** Where a selection leaves the chosen name, going from [w] to [w']: in
    the session, in the draft, or in the message that tells the requester
    what became of the recipient's copy. *)
Definition recorded (k : Kind) (user_id : Z) (w w' : World) (name : string)
  : Prop :=
  match k with
  | Stores =>
      ∃ s, user_data_store w' !! user_id = Some s
           ∧ fields s !! "store" = Some name
  | Colors =>
      ∃ l, current_product (ctx_of w' user_id) = Some l
           ∧ deref w' l !! "color" = Some name
  | Recipients =>
      ∃ new, outbox w' = (outbox w ++ new)%list
             ∧ (send_message user_id
                  ("Order has been sent to " ++ name ++ ".") NoMarkup ∈ new
                ∨ send_message user_id
                    ("Could not send the file to " ++ name
                     ++ ". Please forward it manually.") NoMarkup ∈ new)
  end.

(** A computation keeps a relation between the world before and after,
    however it ends. *)
Definition preserves {A} (P : World → World → Prop) (m : M A) : Prop :=
  ∀ w, P w (snd (m w)).

(** What a computation can return. *)
Definition returns {A} (m : M A) (R : A → Prop) : Prop :=
  ∀ w a w', m w = (Done a, w') → R a.

(** The table [order_rows] builds (it reads only). *)
Definition order_table_of (user_id : Z) (ps : list loc) (w : World)
  : Outcome (list OrderRow) :=
  fst (order_rows user_id ps w).





(** A handler run for [user_id] leaves the conversation table and the other
    users' entries alone. *)
Definition own (user_id : Z) (w w' : World) : Prop :=
  conversations w' = conversations w
  ∧ ∀ v, v ≠ user_id →
         user_data_store w' !! v = user_data_store w !! v
         ∧ user_data w' !! v = user_data w !! v.


(** The product list of a user: no entry in the store, an entry without
    the ['products'] key, or the list. *)
Definition product_list (w : World) (user_id : Z) : option (option (list loc)) :=
  products <$> user_data_store w !! user_id.

(** Every user's product list is as before, or is gone, or is empty. *)
Definition no_append (w w' : World) : Prop :=
  ∀ v, product_list w' v = product_list w v
       ∨ product_list w' v = None
       ∨ product_list w' v = Some None
       ∨ product_list w' v = Some (Some []).

(** Nothing but the log of effects differs. *)
Definition same_but_outbox (w w' : World) : Prop :=
  excel_data w' = excel_data w
  ∧ user_data_store w' = user_data_store w
  ∧ user_data w' = user_data w
  ∧ heap w' = heap w
  ∧ files w' = files w
  ∧ conversations w' = conversations w.

(** The head of [process_name] when the user has a session and can be
    reached: the name is stored and the waiting notice is sent. *)
Definition named (user_id : Z) (message_text : string) (s : Session)
    (w : World) : World :=
  log (reply_text user_id "Loading store data, please wait..." NoMarkup)
      (set_user_data_store
         (<[user_id := mkSession (<["name" := message_text]> (fields s))
                                 (products s)]> (user_data_store w)) w).

(** ** A sample process

    A workbook with three stores, two colours and two recipients (the
    second with an address that is no number), and one user's conversation
    cut at several points. *)

Module Sample.

Definition workbook : Sheets :=
  mkSheets [["Bazaar"]; ["Mall"]; ["Outlet"]]
           [["Red"]; ["Blue"]]
           [["Bob"; "77"]; ["Eve"; "n/a"]].

Definition online : Env := mkEnv (Some workbook) (λ _, true).

(** The download fails. *)
Definition no_workbook : Env := mkEnv None (λ _, true).

(** Chat 77 cannot be reached. *)
Definition bob_away : Env :=
  mkEnv (Some workbook) (λ chat, negb (chat =? 77)).

Definition command (user_id : Z) (name : string) : Env * Update :=
  (online, mkUpdate user_id (Command name)).
Definition says (user_id : Z) (t : string) : Env * Update :=
  (online, mkUpdate user_id (TextMessage t)).
Definition photo (user_id : Z) (sizes : list string) : Env * Update :=
  (online, mkUpdate user_id (PhotoMessage sizes)).
Definition press (user_id : Z) (data : string) : Env * Update :=
  (online, mkUpdate user_id (CallbackQuery data)).

(** Up to the store menu. *)
Definition to_store_menu : list (Env * Update) :=
  [command 1 "start"; says 1 "Ann"].

(** Up to the first product image being awaited. *)
Definition to_first_product : list (Env * Update) :=
  (to_store_menu
   ++ [press 1 "store_1"; says 1 "S1"; says 1 "Jane"; says 1 "555"])%list.

(** Up to the colour menu: a draft with image and code. *)
Definition to_color_menu : list (Env * Update) :=
  (to_first_product ++ [photo 1 ["small"; "large"]; says 1 "C1"])%list.

(** Up to the confirmation question: a complete draft. *)
Definition to_confirmation : list (Env * Update) :=
  (to_color_menu
   ++ [press 1 "color_0"; says 1 "50"; says 1 "S-XL"; says 1 "9.99"])%list.

(** Up to the next-action menu: one confirmed product. *)
Definition to_next_action : list (Env * Update) :=
  (to_confirmation ++ [press 1 "confirm_yes"])%list.

(** Up to the recipient menu. *)
Definition to_recipient_menu : list (Env * Update) :=
  (to_next_action ++ [says 1 "Save to file"])%list.

Definition at_store_menu : World := run to_store_menu world_init.
Definition at_color_menu : World := run to_color_menu world_init.
Definition at_confirmation : World := run to_confirmation world_init.
Definition at_next_action : World := run to_next_action world_init.
Definition at_recipient_menu : World := run to_recipient_menu world_init.

(** The session and the confirmed product at the next-action menu. *)
Definition session_at_next_action : Session :=
  default session_empty (user_data_store at_next_action !! 1).
Definition confirmed_product : Product := deref at_next_action 0%nat.

(** The order table built by "Save to file". *)
Definition order_table : list OrderRow :=
  default [] (order_dataframe (ctx_of at_recipient_menu 1)).

End Sample.

(** * Properties *)

(** ** Python primitives *)

Lemma split_uint (d : Decimal.uint) :
  Py.split "_" (NilEmpty.string_of_uint d) = [NilEmpty.string_of_uint d].
Proof. induction d; simpl; rewrite ?IHd; reflexivity. Qed.

Lemma split_str (z : Z) : Py.split "_" (Py.str z) = [Py.str z].
Proof.
  unfold Py.str.
  destruct (Z.to_int z) as [d|d]; simpl.
  - destruct d; try reflexivity; apply split_uint.
  - destruct d; try reflexivity;
      change (NilZero.string_of_uint ?x) with (NilEmpty.string_of_uint x);
      rewrite split_uint; reflexivity.
Qed.

Lemma int_str (z : Z) : Py.int (Py.str z) = Done z.
Proof.
  unfold Py.int, Py.str.
  rewrite NilZero.isi.
  - by rewrite DecimalZ.of_to.
  - destruct z; simpl; try discriminate.
    intros [= H]. by apply DecimalPos.Unsigned.to_uint_nonnil in H.
  - destruct z; simpl; try discriminate.
    intros [= H]. by apply DecimalPos.Unsigned.to_uint_nonnil in H.
Qed.

Lemma append_cons (c : ascii) (s t : string) :
  String c s +:+ t = String c (s +:+ t).
Proof. reflexivity. Qed.

Lemma append_nil (t : string) : "" +:+ t = t.
Proof. reflexivity. Qed.

(** The index written into a row token is the index read back. *)
Lemma token_index_row_token (k : Kind) (i : Z) :
  token_index (row_token k i) = Done i.
Proof.
  unfold token_index, row_token.
  destruct k; cbn [token]; rewrite !append_cons, !append_nil;
    cbn [Py.split Ascii.eqb Bool.eqb]; rewrite split_str;
    cbn [Py.item lookup list_lookup Py.obind]; apply int_str.
Qed.

Lemma token_index_prev (k : Kind) :
  token_index (prev_token k) = Raised ValueError.
Proof. by destruct k. Qed.

Lemma token_index_next (k : Kind) :
  token_index (next_token k) = Raised ValueError.
Proof. by destruct k. Qed.

Lemma row_token_not_nav (k : Kind) (i : Z) :
  row_token k i ≠ prev_token k ∧ row_token k i ≠ next_token k.
Proof.
  split; intros E; pose proof (token_index_row_token k i) as H;
    rewrite E in H; [rewrite token_index_prev in H
                    | rewrite token_index_next in H]; discriminate.
Qed.

Lemma row_token_startswith (k : Kind) (i : Z) :
  Py.startswith (token k ++ "_") (row_token k i) = true.
Proof.
  unfold row_token, Py.startswith.
  destruct k; cbn [token]; rewrite !append_cons, !append_nil;
    destruct (Py.str i); reflexivity.
Qed.

(** ** Pagination *)

Lemma total_pages_ceiling (n : Z) :
  ITEMS_PER_PAGE * (total_pages n - 1) < n ≤ ITEMS_PER_PAGE * total_pages n.
Proof.
  unfold total_pages, ITEMS_PER_PAGE.
  pose proof (Z.div_mod (n + 10 - 1) 10 ltac:(lia)) as E.
  pose proof (Z.mod_pos_bound (n + 10 - 1) 10 ltac:(lia)) as B.
  lia.
Qed.

Lemma total_pages_empty : total_pages 0 = 0.
Proof. reflexivity. Qed.

Lemma total_pages_positive (n : Z) : 0 < n → 1 ≤ total_pages n.
Proof. pose proof (total_pages_ceiling n). unfold ITEMS_PER_PAGE in *. lia. Qed.

Lemma range_length (a b : Z) :
  Z.of_nat (length (Py.range a b)) = Z.max 0 (b - a).
Proof. unfold Py.range. rewrite length_map, length_seq. lia. Qed.

Lemma range_bounds (a b i : Z) : i ∈ Py.range a b → a ≤ i < b.
Proof.
  unfold Py.range. intros H.
  apply list_elem_of_In, in_map_iff in H as (j & <- & Hj).
  apply in_seq in Hj. lia.
Qed.

Lemma iloc_inside (df : DataFrame) (i : Z) (j c : nat) :
  Pandas.wide c df → (j < c)%nat → 0 ≤ i < Pandas.len df →
  ∃ row cell, df !! Z.to_nat i = Some row ∧ row !! j = Some cell
              ∧ Pandas.iloc df i j = Done cell.
Proof.
  unfold Pandas.wide, Pandas.iloc, Pandas.len. intros Hw Hj Hi.
  destruct (df !! Z.to_nat i) as [row|] eqn:Hrow.
  2: { apply lookup_ge_None in Hrow. lia. }
  assert (Hlen : (c ≤ length row)%nat).
  { rewrite Forall_forall in Hw. apply Hw.
    apply list_elem_of_lookup. eauto. }
  destruct (row !! j) as [cell|] eqn:Hcell.
  2: { apply lookup_ge_None in Hcell. lia. }
  exists row, cell. repeat split; try done.
  replace (i <? - Z.of_nat (length df)) with false by lia.
  replace (Z.of_nat (length df) <=? i) with false by lia.
  replace (i <? 0) with false by lia.
  simpl. rewrite Hrow. unfold Py.item. by rewrite Hcell.
Qed.

(** Inside the frame the loop makes one keyboard row per index. *)
Lemma item_rows_inside (k : Kind) (df : DataFrame) (indices : list Z) :
  Pandas.wide (columns k) df →
  (∀ i, i ∈ indices → 0 ≤ i < Pandas.len df) →
  ∃ rows, item_rows k df indices = Done rows ∧ length rows = length indices.
Proof.
  intros Hw. induction indices as [|i rest IH]; intros Hin.
  - by exists [].
  - destruct IH as (rows & Hrows & Hlen).
    { intros j Hj. apply Hin. by right. }
    assert (Hi : 0 ≤ i < Pandas.len df) by (apply Hin; by left).
    destruct (iloc_inside df i 0 (columns k) Hw ltac:(destruct k; simpl; lia) Hi)
      as (row & name & _ & _ & Hname).
    cbn [item_rows]. rewrite Hname. cbn [Py.obind].
    assert (Hsnd : ∃ c, (match k with
                         | Recipients => Pandas.iloc df i 1
                         | _ => Done name
                         end) = Done c).
    { destruct k; eauto.
      destruct (iloc_inside df i 1 2 Hw ltac:(lia) Hi) as (? & c & _ & _ & ?).
      eauto. }
    destruct Hsnd as [c ->]. cbn [Py.obind]. rewrite Hrows. cbn [Py.obind].
    eexists. split; [done|]. simpl. by rewrite Hlen.
Qed.

Lemma valid_page_start (current_page total : Z) :
  0 ≤ total → valid_page current_page total →
  0 ≤ start_idx current_page
  ∧ (start_idx current_page ≤ total)
  ∧ (0 < total → start_idx current_page < total).
Proof.
  unfold valid_page, start_idx. intros Hn Hv.
  pose proof (total_pages_ceiling total) as Hc.
  unfold ITEMS_PER_PAGE in *. lia.
Qed.

(** ** Running handlers *)

Lemma bind_done {A B} (m : M A) (k : A → M B) (w w' : World) (a : A) :
  m w = (Done a, w') → bind m k w = k a w'.
Proof. unfold bind. by intros ->. Qed.

Lemma bind_raised {A B} (m : M A) (k : A → M B) (w w' : World) (e : Exn) :
  m w = (Raised e, w') → bind m k w = (Raised e, w').
Proof. unfold bind. by intros ->. Qed.

Lemma api_reachable (env : Env) (chat : Z) (e : Effect) (w : World) :
  reachable env chat = true → api env chat e w = (Done tt, log e w).
Proof. unfold api. by intros ->. Qed.

Lemma api_unreachable (env : Env) (chat : Z) (e : Effect) (w : World) :
  reachable env chat = false → api env chat e w = (Raised TelegramError, w).
Proof. unfold api. by intros ->. Qed.

Lemma same_but_outbox_refl (w : World) : same_but_outbox w w.
Proof. by repeat split. Qed.

Lemma same_but_outbox_trans (w1 w2 w3 : World) :
  same_but_outbox w1 w2 → same_but_outbox w2 w3 → same_but_outbox w1 w3.
Proof.
  unfold same_but_outbox.
  intros (?&?&?&?&?&?) (?&?&?&?&?&?). repeat split; congruence.
Qed.

Lemma same_but_outbox_log (e : Effect) (w : World) :
  same_but_outbox w (log e w).
Proof. by repeat split. Qed.

Lemma api_same (env : Env) (chat : Z) (e : Effect) (w : World) :
  same_but_outbox w (snd (api env chat e w)).
Proof.
  unfold api. destruct (reachable env chat); simpl;
    [apply same_but_outbox_log | apply same_but_outbox_refl].
Qed.

(** Drawing a menu changes nothing but the log. *)
Lemma show_page_same (k : Kind) (env : Env) (user_id : Z) (cb : bool)
    (w : World) :
  same_but_outbox w (snd (show_page k env user_id cb w)).
Proof.
  unfold show_page, bind, ctx, get, lift, raise, ret. simpl.
  destruct (slot k (excel_data w)); simpl; [|apply same_but_outbox_refl].
  destruct (page_keyboard k d _); simpl; [|apply same_but_outbox_refl].
  destruct cb; apply api_same.
Qed.

Lemma ctx_of_same (w w' : World) (user_id : Z) :
  same_but_outbox w w' → ctx_of w' user_id = ctx_of w user_id.
Proof. unfold ctx_of. by intros (_&_&->&_). Qed.

Lemma navigate_prev (k : Kind) (env : Env) (user_id : Z) (same : State) :
  navigate k env user_id (prev_token k) same
  = Some (bump_page k user_id (-1);; show_page k env user_id true;;
          ret (Goto same)).
Proof. by destruct k. Qed.

Lemma navigate_next (k : Kind) (env : Env) (user_id : Z) (same : State) :
  navigate k env user_id (next_token k) same
  = Some (bump_page k user_id 1;; show_page k env user_id true;;
          ret (Goto same)).
Proof. by destruct k. Qed.

(** On a navigation token a choice handler answers the query, moves the
    page, redraws and stays. *)
Lemma choice_navigation (k : Kind) (env : Env) (user_id : Z) (data : string)
    (d : Z) :
  (data = prev_token k ∧ d = -1) ∨ (data = next_token k ∧ d = 1) →
  choice k env user_id data
  = (api env user_id (answer user_id);;
     bump_page k user_id d;; show_page k env user_id true;;
     ret (Goto (choice_state k))).
Proof.
  intros [[-> ->]|[-> ->]]; destruct k; reflexivity.
Qed.

Lemma page_of_with_page (k : Kind) (p : option Z) (c : Ctx) :
  page_of k (with_page k p c) = p.
Proof. by destruct k. Qed.

Lemma ctx_of_put (user_id : Z) (c : Ctx) (m : gmap Z Ctx) (w : World) :
  ctx_of (set_user_data (<[user_id := c]> m) w) user_id = c.
Proof. unfold ctx_of. simpl. by rewrite lookup_insert_eq. Qed.

Lemma ctx_of_put_ne (user_id other : Z) (c : Ctx) (m : gmap Z Ctx)
    (w : World) :
  user_id ≠ other →
  ctx_of (set_user_data (<[user_id := c]> m) w) other
  = default ctx_empty (m !! other).
Proof. unfold ctx_of. simpl. intros. by rewrite lookup_insert_ne. Qed.

(** A navigation event moves the page index by one, whatever the index. *)
Lemma navigation_moves (k : Kind) (env : Env) (user_id : Z) (data : string)
    (d p : Z) (w : World) :
  (data = prev_token k ∧ d = -1) ∨ (data = next_token k ∧ d = 1) →
  reachable env user_id = true →
  page_of k (ctx_of w user_id) = Some p →
  page_of k (ctx_of (snd (choice k env user_id data w)) user_id)
  = Some (p + d).
Proof.
  intros Hd Hr Hp. rewrite (choice_navigation k env user_id data d Hd).
  erewrite bind_done by (by apply api_reachable).
  unfold bump_page at 1.
  unfold bind at 1. unfold bind at 1. unfold ctx at 1.
  change (ctx_of (log (answer user_id) w) user_id) with (ctx_of w user_id).
  rewrite Hp. unfold put_ctx, modify.
  set (w2 := set_user_data _ _).
  pose proof (show_page_same k env user_id true w2) as Hs.
  unfold bind.
  destruct (show_page k env user_id true w2) as [[[]|e] w3]; simpl in *;
    rewrite (ctx_of_same _ _ _ Hs); subst w2;
    unfold ctx_of; simpl; rewrite lookup_insert_eq; simpl;
    apply page_of_with_page.
Qed.

(** C1 (as amended).  In each of the three lists a Prev event lowers and a
    Next event raises the stored page index by exactly one, with no
    clamping; the bound [0 <= page < max(total_pages, 1)] is kept by every
    navigation event whose button the page on display offers (Prev only
    above page 0, Next only below the last page). *)
Theorem C1_navigation_moves_by_one (k : Kind) (env : Env) (user_id : Z)
    (w : World) (p : Z) :
  reachable env user_id = true →
  page_of k (ctx_of w user_id) = Some p →
  page_of k (ctx_of (snd (choice k env user_id (prev_token k) w)) user_id)
  = Some (p - 1)
  ∧ page_of k (ctx_of (snd (choice k env user_id (next_token k) w)) user_id)
    = Some (p + 1)
  ∧ ∀ total, valid_page p total →
      (has_prev p = true → valid_page (p - 1) total)
      ∧ (has_next p total = true → valid_page (p + 1) total).
Proof.
  intros Hr Hp. split; [|split].
  - apply (navigation_moves k env user_id _ (-1) p w); auto.
  - apply (navigation_moves k env user_id _ 1 p w); auto.
  - unfold valid_page, has_prev, has_next. intros total Hv. split; lia.
Qed.

Lemma C1_navigation_moves_by_one_witness :
  page_of Stores
    (ctx_of (snd (choice Stores Sample.online 1 (prev_token Stores)
                         Sample.at_store_menu)) 1)
  = Some (0 - 1)
  ∧ page_of Stores
      (ctx_of (snd (choice Stores Sample.online 1 (next_token Stores)
                           Sample.at_store_menu)) 1)
    = Some (0 + 1)
  ∧ ∀ total, valid_page 0 total →
      (has_prev 0 = true → valid_page (0 - 1) total)
      ∧ (has_next 0 total = true → valid_page (0 + 1) total).
Proof.
  apply (C1_navigation_moves_by_one Stores Sample.online 1
           Sample.at_store_menu 0).
  - reflexivity.
  - vm_compute. reflexivity.
Defined.

(** C1 as stated fails: on the last page (page 0 of one) a Next event
    stores page 1, and on page 0 a Prev event stores page -1; both leave
    the bound. *)
Lemma C1_boundary_events_move_the_page :
  let w := Sample.at_store_menu in
  let next :=
    process_update Sample.online
      (mkUpdate 1 (CallbackQuery "store_next_page")) w in
  let prev :=
    process_update Sample.online
      (mkUpdate 1 (CallbackQuery "store_prev_page")) w in
  stores_page (ctx_of w 1) = Some 0
  ∧ total_pages (Pandas.len (sheet0 Sample.workbook)) = 1
  ∧ stores_page (ctx_of next 1) = Some 1
  ∧ stores_page (ctx_of prev 1) = Some (-1)
  ∧ ¬ valid_page 1 (Pandas.len (sheet0 Sample.workbook))
  ∧ ¬ valid_page (-1) (Pandas.len (sheet0 Sample.workbook)).
Proof.
  repeat split; try (vm_compute; reflexivity);
    unfold valid_page; vm_compute; intros [H1 H2]; congruence.
Qed.

(** C2 (as amended).  With pages of 10, the page count is the ceiling of
    [n / 10] (so 0, not 1, for an empty list, and at least 1 otherwise); on
    every valid page the menu has [min(10, n - page * 10)] item rows; and an
    empty list gives zero rows and neither a Prev nor a Next button. *)
Theorem C2_page_count_and_slice (k : Kind) (df : DataFrame)
    (current_page : Z) :
  Pandas.wide (columns k) df →
  valid_page current_page (Pandas.len df) →
  let n := Pandas.len df in
  ITEMS_PER_PAGE = 10
  ∧ ITEMS_PER_PAGE * (total_pages n - 1) < n ≤ ITEMS_PER_PAGE * total_pages n
  ∧ (0 < n → total_pages n = Z.max 1 (total_pages n))
  ∧ (∃ rows,
       item_rows k df
         (Py.range (start_idx current_page) (end_idx current_page n))
       = Done rows
       ∧ page_keyboard k df current_page
         = Done (rows
                 ++ (match nav_buttons k current_page n with
                     | [] => []
                     | nav => [nav]
                     end)
                 ++ skip_row k)%list
       ∧ Z.of_nat (length rows)
         = Z.min ITEMS_PER_PAGE (n - current_page * ITEMS_PER_PAGE))
  ∧ (n = 0 →
     total_pages n = 0
     ∧ nav_buttons k current_page n = []
     ∧ page_keyboard k df current_page = Done (skip_row k)).
Proof.
  intros Hw Hv n. fold n in Hv.
  assert (Hn : 0 ≤ n) by (unfold n, Pandas.len; lia).
  destruct (valid_page_start current_page n Hn Hv) as (Hs0 & Hs1 & Hs2).
  split; [reflexivity|]. split; [apply total_pages_ceiling|].
  split; [intros Hpos; pose proof (total_pages_positive n Hpos); lia|].
  destruct (item_rows_inside k df
              (Py.range (start_idx current_page) (end_idx current_page n)) Hw)
    as (rows & Hrows & Hlen).
  { intros i Hi. apply range_bounds in Hi. unfold end_idx in Hi. fold n. lia. }
  assert (Hkb : page_keyboard k df current_page
                = Done (rows
                        ++ (match nav_buttons k current_page n with
                            | [] => []
                            | nav => [nav]
                            end)
                        ++ skip_row k)%list).
  { unfold page_keyboard. fold n. rewrite Hrows. cbn [Py.obind].
    by destruct (nav_buttons k current_page n). }
  assert (Hcount : Z.of_nat (length rows)
                   = Z.min ITEMS_PER_PAGE (n - current_page * ITEMS_PER_PAGE)).
  { rewrite Hlen, range_length. unfold end_idx, start_idx in *.
    unfold ITEMS_PER_PAGE in *. lia. }
  split.
  - exists rows. by repeat split.
  - intros H0.
    assert (Hp : current_page = 0).
    { unfold valid_page in Hv. rewrite H0, total_pages_empty in Hv. lia. }
    assert (Hnav : nav_buttons k current_page n = []).
    { rewrite Hp, H0. by destruct k. }
    split; [by rewrite H0|]. split; [done|].
    rewrite Hkb, Hnav.
    assert (rows = []) as ->.
    { apply length_zero_iff_nil. rewrite H0, Hp in Hcount.
      unfold ITEMS_PER_PAGE in Hcount. lia. }
    reflexivity.
Qed.

Lemma C2_page_count_and_slice_witness :
  let n := Pandas.len (sheet0 Sample.workbook) in
  ITEMS_PER_PAGE = 10
  ∧ ITEMS_PER_PAGE * (total_pages n - 1) < n ≤ ITEMS_PER_PAGE * total_pages n
  ∧ (0 < n → total_pages n = Z.max 1 (total_pages n))
  ∧ (∃ rows,
       item_rows Stores (sheet0 Sample.workbook)
         (Py.range (start_idx 0) (end_idx 0 n))
       = Done rows
       ∧ page_keyboard Stores (sheet0 Sample.workbook) 0
         = Done (rows
                 ++ (match nav_buttons Stores 0 n with
                     | [] => []
                     | nav => [nav]
                     end)
                 ++ skip_row Stores)%list
       ∧ Z.of_nat (length rows)
         = Z.min ITEMS_PER_PAGE (n - 0 * ITEMS_PER_PAGE))
  ∧ (n = 0 →
     total_pages n = 0
     ∧ nav_buttons Stores 0 n = []
     ∧ page_keyboard Stores (sheet0 Sample.workbook) 0
       = Done (skip_row Stores)).
Proof.
  apply (C2_page_count_and_slice Stores (sheet0 Sample.workbook) 0).
  - repeat constructor.
  - unfold valid_page. vm_compute. split; congruence.
Defined.

(** C2 as stated fails: for the empty list the code counts 0 pages, not
    [max(1, ceil(0 / 10)) = 1], and the menu is headed "Page 1/0". *)
Lemma C2_empty_list_has_zero_pages :
  total_pages (Pandas.len []) = 0
  ∧ total_pages (Pandas.len []) ≠ Z.max 1 (total_pages (Pandas.len []))
  ∧ page_text Stores 0 (Pandas.len [])
    = "Please select a store/market (Page 1/0):".
Proof. repeat split. vm_compute. congruence. Qed.

(** ** Reading a world after a write *)

Lemma ctx_of_log e w u : ctx_of (log e w) u = ctx_of w u.
Proof. reflexivity. Qed.
Lemma ctx_of_set_heap h w u : ctx_of (set_heap h w) u = ctx_of w u.
Proof. reflexivity. Qed.
Lemma ctx_of_set_store s w u : ctx_of (set_user_data_store s w) u = ctx_of w u.
Proof. reflexivity. Qed.
Lemma ctx_of_set_files f w u : ctx_of (set_files f w) u = ctx_of w u.
Proof. reflexivity. Qed.
Lemma ctx_of_set_excel d w u : ctx_of (set_excel_data d w) u = ctx_of w u.
Proof. reflexivity. Qed.
Lemma ctx_of_set_conv c w u : ctx_of (set_conversations c w) u = ctx_of w u.
Proof. reflexivity. Qed.

Lemma deref_log e w l : deref (log e w) l = deref w l.
Proof. reflexivity. Qed.
Lemma deref_set_ctx c w l : deref (set_user_data c w) l = deref w l.
Proof. reflexivity. Qed.
Lemma deref_set_store s w l : deref (set_user_data_store s w) l = deref w l.
Proof. reflexivity. Qed.
Lemma deref_set_files f w l : deref (set_files f w) l = deref w l.
Proof. reflexivity. Qed.
Lemma deref_set_excel d w l : deref (set_excel_data d w) l = deref w l.
Proof. reflexivity. Qed.
Lemma deref_set_conv c w l : deref (set_conversations c w) l = deref w l.
Proof. reflexivity. Qed.

Lemma deref_new (h : list Product) (d : Product) (w : World) :
  deref (set_heap (h ++ [d]) w) (length h) = d.
Proof. unfold deref. simpl. by rewrite list_lookup_middle. Qed.

Lemma deref_some (w : World) (l : loc) (d : Product) :
  heap w !! l = Some d → deref w l = d.
Proof. unfold deref. by intros ->. Qed.

Lemma getitem_some {V} (d : gmap string V) (key : string) (v : V) :
  d !! key = Some v → Py.getitem d key = Done v.
Proof. unfold Py.getitem. by intros ->. Qed.

Create Rewrite HintDb world.

#[global] Hint Rewrite
  ctx_of_log ctx_of_set_heap ctx_of_set_store ctx_of_set_files
  ctx_of_set_excel ctx_of_set_conv ctx_of_put
  deref_log deref_set_ctx deref_set_store deref_set_files deref_set_excel
  deref_set_conv deref_new page_of_with_page : world.

(** Reduce the projections of a world built by the setters, then read
    through the writes. *)
Ltac wsimpl :=
  cbn [excel_data user_data_store user_data heap files conversations outbox
       log set_excel_data set_user_data_store set_user_data set_heap
       set_files set_conversations fst snd];
  autorewrite with world.


(** ** The reference-data cache *)

Lemma set_field_present (user_id : Z) (key value : string) (s : Session)
    (w : World) :
  user_data_store w !! user_id = Some s →
  set_field user_id key value w
  = (Done tt,
     set_user_data_store
       (<[user_id := mkSession (<[key := value]> (fields s)) (products s)]>
          (user_data_store w)) w).
Proof. unfold set_field, bind, session, put_session, modify. by intros ->. Qed.

(** Once the cache holds a frame, the loaded-check of [process_name] raises
    [ValueError]: nothing is fetched, no menu is sent. *)
Lemma process_name_when_loaded (env : Env) (user_id : Z)
    (message_text : string) (s : Session) (df : DataFrame) (w : World) :
  user_data_store w !! user_id = Some s →
  reachable env user_id = true →
  stores (excel_data w) = Some df →
  process_name env user_id message_text w
  = (Raised ValueError, named user_id message_text s w).
Proof.
  intros Hs Hr Hl. unfold process_name.
  erewrite bind_done by (by apply set_field_present).
  erewrite bind_done by (by apply api_reachable).
  unfold bind, get, lift. simpl. by rewrite Hl.
Qed.

(** A failed load leaves the cache as it was, tells the user and ends the
    conversation; the fetch was attempted. *)
Lemma process_name_load_failure (env : Env) (user_id : Z)
    (message_text : string) (s : Session) (w : World) :
  user_data_store w !! user_id = Some s →
  reachable env user_id = true →
  stores (excel_data w) = None →
  download env = None →
  ∃ w',
    process_name env user_id message_text w = (Done END, w')
    ∧ excel_data w' = excel_data w
    ∧ outbox w'
      = (outbox w
         ++ [reply_text user_id "Loading store data, please wait..." NoMarkup;
             requests_get;
             reply_text user_id
               "Failed to load store data. Please try again later."
               NoMarkup])%list.
Proof.
  intros Hs Hr Hl Hd. unfold process_name.
  erewrite bind_done by (by apply set_field_present).
  erewrite bind_done by (by apply api_reachable).
  unfold bind, get, lift, load_excel_data, modify, ret, api. simpl.
  rewrite Hl, Hd, Hr. simpl.
  eexists. split; [reflexivity|]. simpl. split; [done|].
  by rewrite <- !app_assoc.
Qed.

(** With an empty cache every name message attempts the fetch. *)
Lemma process_name_fetches_when_empty (env : Env) (user_id : Z)
    (message_text : string) (s : Session) (w : World) :
  user_data_store w !! user_id = Some s →
  reachable env user_id = true →
  stores (excel_data w) = None →
  requests_get ∈ outbox (snd (process_name env user_id message_text w)).
Proof.
  intros Hs Hr Hl. unfold process_name.
  erewrite bind_done by (by apply set_field_present).
  erewrite bind_done by (by apply api_reachable).
  unfold bind at 1. unfold get at 1. unfold bind at 1. unfold lift at 1.
  wsimpl. rewrite Hl. cbn [not_loaded slot_truth Py.obind negb].
  unfold load_excel_data. unfold bind at 1. unfold bind at 1.
  unfold modify at 1.
  set (w1 := log requests_get _).
  assert (H1 : requests_get ∈ outbox w1).
  { unfold w1. wsimpl. rewrite !elem_of_app, !list_elem_of_singleton. tauto. }
  clearbody w1.
  destruct (download env) as [sheets|].
  - (* the menu is drawn after the load *)
    unfold bind at 1. unfold modify at 1. unfold ret at 1. cbn [negb].
    unfold bind at 1. unfold set_page at 1. unfold bind at 1, ctx at 1.
    unfold put_ctx, modify.
    set (w2 := set_user_data _ _).
    assert (H2 : requests_get ∈ outbox w2) by (unfold w2; by wsimpl).
    clearbody w2. unfold bind, ret.
    pose proof (show_page_same Stores env user_id false w2) as Hsame.
    unfold show_stores_page.
    assert (Hgrow : ∀ x, x ∈ outbox w2 →
              x ∈ outbox (snd (show_page Stores env user_id false w2))).
    { intros x Hx. unfold show_page, bind, ctx, get, lift, raise, ret.
      destruct (slot Stores (excel_data w2)); [|done].
      destruct (page_keyboard Stores d _); [|done].
      unfold api. rewrite Hr. wsimpl. apply elem_of_app. by left. }
    specialize (Hgrow _ H2).
    by destruct (show_page Stores env user_id false w2) as [[[]|?] ?].
  - unfold bind, ret. cbn [negb]. unfold api. rewrite Hr. wsimpl.
    apply elem_of_app. by left.
Qed.

(** C3, at the failing input.  After one successful load (user 1), the next
    name message (user 2) makes the loaded-check itself raise [ValueError]:
    nothing is fetched again, but no store menu is sent either and user 2
    stays in [NAME]. *)
Lemma C3_loaded_check_raises :
  let w := run [Sample.command 1 "start"; Sample.says 1 "Ann";
                Sample.command 2 "start"] world_init in
  let u := mkUpdate 2 (TextMessage "Bob") in
  stores (excel_data w) = Some (sheet0 Sample.workbook)
  ∧ conversations w !! 2 = Some NAME
  ∧ fst (process_name Sample.online 2 "Bob" w) = Raised ValueError
  ∧ conversations (process_update Sample.online u w) !! 2 = Some NAME
  ∧ outbox (process_update Sample.online u w)
    = (outbox w
       ++ [reply_text 2 "Loading store data, please wait..." NoMarkup])%list.
Proof. repeat split; vm_compute; reflexivity. Qed.

(** ** Menus that can be drawn *)

Lemma valid_page_zero (total : Z) : valid_page 0 total.
Proof. unfold valid_page. lia. Qed.

Lemma page_keyboard_inside (k : Kind) (df : DataFrame) (current_page : Z) :
  Pandas.wide (columns k) df →
  valid_page current_page (Pandas.len df) →
  ∃ keyboard, page_keyboard k df current_page = Done keyboard.
Proof.
  intros Hw Hv.
  assert (Hn : 0 ≤ Pandas.len df) by (unfold Pandas.len; lia).
  destruct (valid_page_start _ _ Hn Hv) as (Hs0 & _).
  destruct (item_rows_inside k df
              (Py.range (start_idx current_page)
                        (end_idx current_page (Pandas.len df))) Hw)
    as (rows & Hrows & _).
  { intros i Hi. apply range_bounds in Hi. unfold end_idx in Hi. lia. }
  unfold page_keyboard. rewrite Hrows. cbn [Py.obind]. eauto.
Qed.

Lemma show_page_done (k : Kind) (env : Env) (user_id : Z) (cb : bool)
    (df : DataFrame) (keyboard : list (list InlineKeyboardButton))
    (w : World) :
  reachable env user_id = true →
  slot k (excel_data w) = Some df →
  page_keyboard k df (default 0 (page_of k (ctx_of w user_id)))
  = Done keyboard →
  ∃ e, show_page k env user_id cb w = (Done tt, log e w).
Proof.
  intros Hr Hs Hk.
  unfold show_page, bind, ctx, get, lift, ret. simpl.
  rewrite Hs. simpl. rewrite Hk. simpl.
  destruct cb; unfold api; rewrite Hr; eauto.
Qed.

(** The first page of a loaded list can always be drawn. *)
Lemma show_first_page (k : Kind) (env : Env) (user_id : Z) (cb : bool)
    (df : DataFrame) (w : World) :
  reachable env user_id = true →
  slot k (excel_data w) = Some df →
  Pandas.wide (columns k) df →
  page_of k (ctx_of w user_id) = Some 0 →
  ∃ e, show_page k env user_id cb w = (Done tt, log e w).
Proof.
  intros Hr Hs Hw Hp.
  destruct (page_keyboard_inside k df 0 Hw (valid_page_zero _)) as [kb Hkb].
  eapply show_page_done; eauto. by rewrite Hp.
Qed.

(** ** The next-action menu *)

Lemma process_update_in_state (env : Env) (u : Update) (w : World)
    (s : State) (h : M Ret) :
  conversations w !! effective_user u = Some s →
  states env s (effective_user u) (payload u) = Some h →
  process_update env u w = handle (effective_user u) h w.
Proof. unfold process_update, find_handler. by intros -> ->. Qed.

(** The handler on "Add same product with different color". *)
Lemma process_next_action_same_product (env : Env) (user_id : Z) (w : World) (s : Session)
    (ps : list loc) (l : loc) (d : Product) (sheet : DataFrame) :
  reachable env user_id = true →
  user_data_store w !! user_id = Some s →
  products s = Some (ps ++ [l])%list →
  heap w !! l = Some d →
  (∀ key, key ∈ cloned_keys → is_Some (d !! key)) →
  colors (excel_data w) = Some sheet →
  Pandas.wide 1 sheet →
  ∃ w' fresh d',
    process_next_action env user_id "Add same product with different color" w
    = (Done (Goto PRODUCT_COLOR), w')
    ∧ current_product (ctx_of w' user_id) = Some fresh
    ∧ heap w !! fresh = None
    ∧ heap w' !! fresh = Some d'
    ∧ (∀ key, key ∈ cloned_keys → d' !! key = d !! key)
    ∧ d' !! "color" = None
    ∧ colors_page (ctx_of w' user_id) = Some 0
    ∧ user_data_store w' = user_data_store w
    ∧ heap w' !! l = Some d.
Proof.
  intros Hr Hs Hps Hl Hd Hc Hw.
  destruct (Hd "image_file_id") as [image Himage]; [set_solver|].
  destruct (Hd "code") as [code Hcode]; [set_solver|].
  destruct (Hd "badge_quantity") as [badge Hbadge]; [set_solver|].
  destruct (Hd "size_range") as [size Hsize]; [set_solver|].
  destruct (Hd "price") as [price Hprice]; [set_solver|].
  unfold process_next_action. cbn [String.eqb Ascii.eqb Bool.eqb].
  unfold session_products, bind at 1. unfold bind at 1, session at 1.
  rewrite Hs, Hps. unfold ret at 1. unfold bind at 1, lift at 1, Py.last_item.
  rewrite last_snoc. unfold bind at 1, get at 1. unfold bind at 1, new_dict at 1.
  unfold bind at 1, get at 1.
  rewrite deref_new. rewrite (deref_some _ _ _ Hl).
  repeat (unfold bind at 1, lift at 1;
          first [rewrite (getitem_some _ _ _ Himage)
                |rewrite (getitem_some _ _ _ Hcode)
                |rewrite (getitem_some _ _ _ Hbadge)
                |rewrite (getitem_some _ _ _ Hsize)
                |rewrite (getitem_some _ _ _ Hprice)]).
  unfold bind at 1, new_dict at 1.
  unfold bind at 1, set_current_product at 1, bind at 1, ctx at 1, put_ctx at 1, modify at 1.
  unfold bind at 1, set_page at 1, bind at 1, ctx at 1, put_ctx at 1, modify at 1.
  wsimpl.
  set (w2 := set_user_data _ _).
  destruct (show_first_page Colors env user_id false sheet w2) as [e He];
    [done|exact Hc|done|unfold w2; by wsimpl|].
  unfold show_colors_page. rewrite (bind_done _ _ _ _ _ He). unfold ret.
  eexists _, _, _. split; [reflexivity|].
  unfold w2. wsimpl.
  split; [reflexivity|].
  split; [apply lookup_ge_None; rewrite length_app; simpl; lia|].
  split; [apply list_lookup_middle; reflexivity|].
  split.
  { intros key Hkey. unfold cloned_keys in Hkey.
    repeat (apply elem_of_cons in Hkey as [->|Hkey]);
      [..|by apply elem_of_nil in Hkey]; by simplify_map_eq. }
  split; [by simplify_map_eq|].
  split; [reflexivity|]. split; [reflexivity|].
  rewrite <- app_assoc. apply lookup_app_l_Some. exact Hl.
Qed.

(** C7.  "Add same product with different color", chosen when the last
    confirmed product has its image, code, badge quantity, size range and
    price: the draft becomes a new object that takes these five values from
    that product (the image handle included) and has no colour; the product
    list and the product itself are untouched; the colour page is 0 and the
    conversation is in the colour-selection state. *)
Theorem C7_same_product_different_color (env : Env) (user_id : Z) (w : World)
    (s : Session) (ps : list loc) (l : loc) (d : Product) (sheet : DataFrame) :
  reachable env user_id = true →
  conversations w !! user_id = Some NEXT_ACTION →
  user_data_store w !! user_id = Some s →
  products s = Some (ps ++ [l])%list →
  heap w !! l = Some d →
  (∀ key, key ∈ cloned_keys → is_Some (d !! key)) →
  colors (excel_data w) = Some sheet →
  Pandas.wide 1 sheet →
  ∃ w' fresh d',
    process_next_action env user_id "Add same product with different color" w
    = (Done (Goto PRODUCT_COLOR), w')
    ∧ conversations
        (process_update env
           (mkUpdate user_id
              (TextMessage "Add same product with different color")) w)
      !! user_id = Some PRODUCT_COLOR
    ∧ current_product (ctx_of w' user_id) = Some fresh
    ∧ heap w !! fresh = None
    ∧ heap w' !! fresh = Some d'
    ∧ (∀ key, key ∈ cloned_keys → d' !! key = d !! key)
    ∧ d' !! "color" = None
    ∧ colors_page (ctx_of w' user_id) = Some 0
    ∧ user_data_store w' = user_data_store w
    ∧ heap w' !! l = Some d.
Proof.
  intros Hr Hst Hs Hps Hl Hd Hc Hw.
  destruct (process_next_action_same_product env user_id w s ps l d sheet)
    as (w' & fresh & d' & Hrun & Hrest); try done.
  exists w', fresh, d'. split; [done|]. split; [|done].
  rewrite (process_update_in_state env _ w NEXT_ACTION
             (process_next_action env user_id
                "Add same product with different color")) by done.
  unfold handle. cbn [effective_user]. rewrite Hrun.
  wsimpl. apply lookup_insert_eq.
Qed.

Lemma C7_same_product_different_color_witness :
  ∃ w' fresh d',
    process_next_action Sample.online 1
      "Add same product with different color" Sample.at_next_action
    = (Done (Goto PRODUCT_COLOR), w')
    ∧ conversations
        (process_update Sample.online
           (mkUpdate 1
              (TextMessage "Add same product with different color"))
           Sample.at_next_action)
      !! 1 = Some PRODUCT_COLOR
    ∧ current_product (ctx_of w' 1) = Some fresh
    ∧ heap Sample.at_next_action !! fresh = None
    ∧ heap w' !! fresh = Some d'
    ∧ (∀ key, key ∈ cloned_keys →
         d' !! key = Sample.confirmed_product !! key)
    ∧ d' !! "color" = None
    ∧ colors_page (ctx_of w' 1) = Some 0
    ∧ user_data_store w' = user_data_store Sample.at_next_action
    ∧ heap w' !! 0%nat = Some Sample.confirmed_product.
Proof.
  apply (C7_same_product_different_color Sample.online 1
           Sample.at_next_action Sample.session_at_next_action
           [] 0%nat Sample.confirmed_product (sheet1 Sample.workbook)).
  - reflexivity.
  - reflexivity.
  - reflexivity.
  - reflexivity.
  - reflexivity.
  - intros key Hkey. unfold cloned_keys in Hkey.
    rewrite !elem_of_cons, elem_of_nil in Hkey.
    destruct Hkey as [->|[->|[->|[->|[->|[]]]]]]; vm_compute; eauto.
  - reflexivity.
  - repeat constructor.
Defined.

(** ** Choosing from a menu *)

Lemma navigate_none (k : Kind) (env : Env) (user_id : Z) (data : string)
    (same : State) :
  data ≠ prev_token k → data ≠ next_token k →
  navigate k env user_id data same = None.
Proof.
  intros Hp Hn. unfold navigate.
  apply String.eqb_neq in Hp, Hn. unfold prev_token, next_token in *.
  by rewrite Hp, Hn.
Qed.

(** When the recipient's address is no number or its chat cannot be
    reached, the body of the [try] raises and leaves the world as it was. *)
Lemma forward_to_recipient_fails (env : Env) (user_id : Z)
    (output_filename recipient_name recipient_id : string) (w : World) :
  (∀ chat, Py.int recipient_id = Done chat → reachable env chat = false) →
  ∃ e, forward_to_recipient env user_id output_filename recipient_name
         recipient_id w = (Raised e, w).
Proof.
  intros Hfail.
  unfold forward_to_recipient.
  unfold bind at 1, open_file at 1, bind at 1, get at 1, ret at 1.
  unfold bind at 1, lift at 1.
  destruct (Py.int recipient_id) as [chat|e] eqn:Hint; [|eauto].
  assert (Hname : ∃ o, field user_id "name" w = (o, w)).
  { unfold field, bind, session, lift.
    destruct (user_data_store w !! user_id); eauto. }
  assert (Hstore : ∃ o, field user_id "store" w = (o, w)).
  { unfold field, bind, session, lift.
    destruct (user_data_store w !! user_id); eauto. }
  destruct Hname as [o1 H1], Hstore as [o2 H2].
  unfold bind at 1. rewrite H1. destruct o1; [|eauto].
  unfold bind at 1. rewrite H2. destruct o2; [|eauto].
  unfold bind at 1. rewrite api_unreachable by auto. eauto.
Qed.

(** Choosing a recipient whose delivery fails. *)
Lemma recipient_choice_delivery_fails (env : Env) (user_id : Z)
    (data : string) (w : World) (i : Z) (sheet : DataFrame)
    (name rid : string) (df : list OrderRow) :
  reachable env user_id = true →
  data ≠ prev_token Recipients → data ≠ next_token Recipients →
  data ≠ "recipient_skip" →
  token_index data = Done i →
  recipients (excel_data w) = Some sheet →
  Pandas.iloc sheet i 0 = Done name →
  Pandas.iloc sheet i 1 = Done rid →
  order_dataframe (ctx_of w user_id) = Some df →
  (∀ chat, Py.int rid = Done chat → reachable env chat = false) →
  ∃ w',
    recipient_choice env user_id data w = (Done END, w')
    ∧ outbox w'
      = (outbox w
         ++ [answer user_id;
             to_excel ("order_" ++ Py.str user_id ++ ".xlsx") df;
             delete_message user_id;
             send_document user_id df "Here is your order file.";
             send_message user_id
               ("Could not send the file to " ++ name
                ++ ". Please forward it manually.") NoMarkup;
             send_message user_id
               "Thank you! Your order has been saved. Type /start to place a new order."
               NoMarkup])%list
    ∧ user_data_store w' = delete user_id (user_data_store w)
    ∧ user_data w' = user_data w
    ∧ heap w' = heap w.
Proof.
  intros Hr Hp Hn Hskip Hi Hsheet Hname Hrid Hdf Hfail.
  unfold recipient_choice.
  erewrite bind_done by (by apply api_reachable).
  rewrite navigate_none by done.
  unfold bind at 1, ctx at 1. wsimpl. rewrite Hdf.
  unfold bind at 1, ret at 1.
  unfold bind at 1, write_excel at 1, modify at 1.
  unfold bind at 1, open_file at 1, bind at 1, get at 1, ret at 1.
  wsimpl. rewrite lookup_insert_eq. cbn [default].
  erewrite bind_done by (by apply api_reachable).
  erewrite bind_done by (by apply api_reachable).
  apply String.eqb_neq in Hskip. rewrite Hskip. cbn [negb].
  unfold bind at 1. unfold bind at 1, lift at 1. rewrite Hi.
  unfold bind at 1, get at 1. wsimpl. rewrite Hsheet.
  unfold bind at 1, ret at 1. unfold bind at 1, lift at 1. rewrite Hname.
  unfold bind at 1, lift at 1. rewrite Hrid.
  unfold try_except.
  set (w1 := log (send_document _ _ _) _).
  destruct (forward_to_recipient_fails env user_id
              ("order_" ++ Py.str user_id ++ ".xlsx") name rid w1 Hfail)
    as [e He].
  rewrite He. rewrite api_reachable by done.
  unfold bind at 1, pop_session at 1, modify at 1.
  erewrite bind_done by (by apply api_reachable).
  unfold ret. eexists. split; [reflexivity|].
  unfold w1. wsimpl. split; [|done].
  by rewrite <- !app_assoc.
Qed.

(** C6 (as amended).  A recipient is chosen and the order file cannot be
    delivered to them (the address is no number, or the chat cannot be
    reached): the handler returns [END] without raising; the requester has
    been sent the file first, then the request to forward it manually, then
    the closing message; the conversation is over.  Of the session, the
    user's entry in [user_data_store] (the answers and the product list) is
    removed; the per-user context (the order table, the page indices, the
    current draft) and the product objects are left as they are. *)
Theorem C6_recipient_delivery_failure_is_soft (env : Env) (user_id : Z)
    (data : string) (w : World) (i : Z) (sheet : DataFrame)
    (name rid : string) (df : list OrderRow) :
  reachable env user_id = true →
  conversations w !! user_id = Some CHOOSE_RECIPIENT →
  Py.startswith "recipient_" data = true →
  data ≠ prev_token Recipients → data ≠ next_token Recipients →
  data ≠ "recipient_skip" →
  token_index data = Done i →
  recipients (excel_data w) = Some sheet →
  Pandas.iloc sheet i 0 = Done name →
  Pandas.iloc sheet i 1 = Done rid →
  order_dataframe (ctx_of w user_id) = Some df →
  (∀ chat, Py.int rid = Done chat → reachable env chat = false) →
  ∃ w',
    recipient_choice env user_id data w = (Done END, w')
    ∧ outbox w'
      = (outbox w
         ++ [answer user_id;
             to_excel ("order_" ++ Py.str user_id ++ ".xlsx") df;
             delete_message user_id;
             send_document user_id df "Here is your order file.";
             send_message user_id
               ("Could not send the file to " ++ name
                ++ ". Please forward it manually.") NoMarkup;
             send_message user_id
               "Thank you! Your order has been saved. Type /start to place a new order."
               NoMarkup])%list
    ∧ user_data_store w' = delete user_id (user_data_store w)
    ∧ user_data_store w' !! user_id = None
    ∧ user_data w' = user_data w
    ∧ ctx_of w' user_id = ctx_of w user_id
    ∧ heap w' = heap w
    ∧ conversations
        (process_update env (mkUpdate user_id (CallbackQuery data)) w)
      !! user_id = None.
Proof.
  intros Hr Hst Hpre Hp Hn Hskip Hi Hsheet Hname Hrid Hdf Hfail.
  destruct (recipient_choice_delivery_fails env user_id data w i sheet
              name rid df) as (w' & Hrun & Hout & Hgone & Hctx & Hheap);
    try done.
  exists w'. split; [done|]. split; [done|]. split; [done|].
  split; [rewrite Hgone; apply lookup_delete_eq|]. split; [done|].
  split; [unfold ctx_of; by rewrite Hctx|]. split; [done|].
  rewrite (process_update_in_state env _ w CHOOSE_RECIPIENT
             (recipient_choice env user_id data)); [|done|].
  - unfold handle. cbn [effective_user]. rewrite Hrun. wsimpl.
    apply lookup_delete_eq.
  - cbn [states effective_user payload]. by rewrite Hpre.
Qed.

Lemma C6_recipient_delivery_failure_is_soft_witness :
  ∃ w',
    recipient_choice Sample.bob_away 1 "recipient_0" Sample.at_recipient_menu
    = (Done END, w')
    ∧ outbox w'
      = (outbox Sample.at_recipient_menu
         ++ [answer 1;
             to_excel ("order_" ++ Py.str 1 ++ ".xlsx") Sample.order_table;
             delete_message 1;
             send_document 1 Sample.order_table "Here is your order file.";
             send_message 1
               ("Could not send the file to " ++ "Bob"
                ++ ". Please forward it manually.") NoMarkup;
             send_message 1
               "Thank you! Your order has been saved. Type /start to place a new order."
               NoMarkup])%list
    ∧ user_data_store w' = delete 1 (user_data_store Sample.at_recipient_menu)
    ∧ user_data_store w' !! 1 = None
    ∧ user_data w' = user_data Sample.at_recipient_menu
    ∧ ctx_of w' 1 = ctx_of Sample.at_recipient_menu 1
    ∧ heap w' = heap Sample.at_recipient_menu
    ∧ conversations
        (process_update Sample.bob_away
           (mkUpdate 1 (CallbackQuery "recipient_0")) Sample.at_recipient_menu)
      !! 1 = None.
Proof.
  apply (C6_recipient_delivery_failure_is_soft Sample.bob_away 1
           "recipient_0" Sample.at_recipient_menu 0
           (sheet2 Sample.workbook) "Bob" "77" Sample.order_table).
  - reflexivity.
  - reflexivity.
  - reflexivity.
  - discriminate.
  - discriminate.
  - discriminate.
  - reflexivity.
  - reflexivity.
  - reflexivity.
  - reflexivity.
  - reflexivity.
  - intros chat H. vm_compute in H. injection H as <-. reflexivity.
Defined.

(** C6 as stated fails: after the delivery to Bob has failed, the
    conversation and the store entry of user 1 are gone, but the session is
    not destroyed: the user's context still holds the order table with its
    row, the three page indices and the current draft. *)
Lemma C6_context_survives_delivery_failure :
  let w' := process_update Sample.bob_away
              (mkUpdate 1 (CallbackQuery "recipient_0"))
              Sample.at_recipient_menu in
  conversations w' !! 1 = None
  ∧ user_data_store w' !! 1 = None
  ∧ order_dataframe (ctx_of w' 1) = Some Sample.order_table
  ∧ length Sample.order_table = 1%nat
  ∧ stores_page (ctx_of w' 1) = Some 0
  ∧ colors_page (ctx_of w' 1) = Some 0
  ∧ recipients_page (ctx_of w' 1) = Some 0
  ∧ current_product (ctx_of w' 1) = Some 1%nat
  ∧ deref w' 0%nat !! "code" = Some "C1".
Proof. repeat split; vm_compute; reflexivity. Qed.

Lemma iloc_row (df : DataFrame) (i : Z) (j : nat) (row : list string)
    (cell : string) :
  0 ≤ i → df !! Z.to_nat i = Some row → row !! j = Some cell →
  Pandas.iloc df i j = Done cell.
Proof.
  intros Hi Hrow Hcell. unfold Pandas.iloc, Pandas.len.
  pose proof (lookup_lt_Some _ _ _ Hrow) as Hlt.
  replace (i <? - Z.of_nat (length df)) with false by lia.
  replace (Z.of_nat (length df) <=? i) with false by lia.
  replace (i <? 0) with false by lia.
  cbn [orb]. rewrite Hrow. unfold Py.item. by rewrite Hcell.
Qed.

(** What the [try] of [recipient_choice] can do: it only adds to the log,
    and when it goes through, the requester has been told so. *)
Lemma forward_to_recipient_log (env : Env) (user_id : Z)
    (output_filename recipient_name recipient_id : string) (w w1 : World)
    (o : Outcome unit) :
  forward_to_recipient env user_id output_filename recipient_name
    recipient_id w = (o, w1) →
  ∃ extra,
    same_but_outbox w w1
    ∧ outbox w1 = (outbox w ++ extra)%list
    ∧ (∀ u, o = Done u →
       send_message user_id
         ("Order has been sent to " ++ recipient_name ++ ".") NoMarkup
       ∈ extra).
Proof.
  assert (Hnil : ∀ e : Exn,
            (@Raised unit e, w) = (o, w1) →
            ∃ extra : list Effect,
              same_but_outbox w w1 ∧ outbox w1 = (outbox w ++ extra)%list
              ∧ (∀ u : (), o = Done u →
                 send_message user_id
                   ("Order has been sent to " ++ recipient_name ++ ".")
                   NoMarkup ∈ extra)).
  { intros e [= ? ?]; subst o w1. exists []. rewrite app_nil_r.
    split; [apply same_but_outbox_refl|]. split; [done|]. discriminate. }
  unfold forward_to_recipient.
  unfold bind at 1, open_file at 1, bind at 1, get at 1, ret at 1.
  unfold bind at 1, lift at 1.
  destruct (Py.int recipient_id) as [chat|e] eqn:Hint; [|apply Hnil].
  assert (Hname : ∃ o, field user_id "name" w = (o, w)).
  { unfold field, bind, session, lift.
    destruct (user_data_store w !! user_id); eauto. }
  assert (Hstore : ∃ o, field user_id "store" w = (o, w)).
  { unfold field, bind, session, lift.
    destruct (user_data_store w !! user_id); eauto. }
  destruct Hname as [o1 H1], Hstore as [o2 H2].
  unfold bind at 1. rewrite H1. destruct o1; [|apply Hnil].
  unfold bind at 1. rewrite H2. destruct o2; [|apply Hnil].
  unfold bind at 1, api at 1.
  destruct (reachable env chat); [|apply Hnil].
  unfold api. destruct (reachable env user_id); intros [= ? ?]; subst o w1.
  - eexists [_; _]. wsimpl. split; [by repeat split|].
    split; [by rewrite <- app_assoc|].
    intros u _. rewrite !elem_of_cons. tauto.
  - eexists [_]. wsimpl. split; [by repeat split|]. split; [done|].
    discriminate.
Qed.

(** Processing the token of row [i] records the display name of row [i] of
    the whole list. *)
Lemma selection_records (k : Kind) (env : Env) (user_id : Z) (i : Z)
    (w : World) (df : DataFrame) (row : list string) (name : string) :
  reachable env user_id = true →
  slot k (excel_data w) = Some df →
  0 ≤ i → df !! Z.to_nat i = Some row → row !! 0%nat = Some name →
  (k = Recipients → is_Some (row !! 1%nat)) →
  ready k user_id w →
  recorded k user_id w (snd (choice k env user_id (row_token k i) w)) name.
Proof.
  intros Hr Hslot Hi Hrow Hname Hcol Hready.
  pose proof (iloc_row df i 0 row name Hi Hrow Hname) as Hiloc.
  destruct (row_token_not_nav k i) as [Hp Hn].
  pose proof (token_index_row_token k i) as Htok.
  destruct k; cbn [choice slot ready recorded] in *.
  - (* store_choice *)
    destruct Hready as [s Hs].
    enough (∃ r w', store_choice env user_id (row_token Stores i) w = (r, w')
                    ∧ ∃ s', user_data_store w' !! user_id = Some s'
                            ∧ fields s' !! "store" = Some name)
      as (r & w' & -> & HP) by exact HP.
    unfold store_choice.
    erewrite bind_done by (by apply api_reachable).
    rewrite navigate_none by done.
    unfold bind at 1, lift at 1. rewrite Htok.
    unfold bind at 1, get at 1. wsimpl. rewrite Hslot.
    unfold bind at 1, ret at 1. unfold bind at 1, lift at 1. rewrite Hiloc.
    erewrite bind_done by (by apply set_field_present).
    erewrite bind_done by (by apply api_reachable).
    unfold ret. eexists _, _. split; [reflexivity|]. wsimpl.
    eexists. split; [apply lookup_insert_eq|].
    cbn [fields]. apply lookup_insert_eq.
  - (* color_choice *)
    destruct Hready as (l & Hl & Hlt).
    enough (∃ r w', color_choice env user_id (row_token Colors i) w = (r, w')
                    ∧ ∃ l', current_product (ctx_of w' user_id) = Some l'
                            ∧ deref w' l' !! "color" = Some name)
      as (r & w' & -> & HP) by exact HP.
    unfold color_choice.
    erewrite bind_done by (by apply api_reachable).
    rewrite navigate_none by done.
    unfold bind at 1, lift at 1. rewrite Htok.
    unfold bind at 1, get at 1. wsimpl. rewrite Hslot.
    unfold bind at 1, ret at 1. unfold bind at 1, lift at 1. rewrite Hiloc.
    unfold bind at 1, set_product_field at 1, bind at 1.
    unfold the_current_product at 1, bind at 1, ctx at 1. wsimpl.
    rewrite Hl. unfold ret at 1, modify at 1.
    erewrite bind_done by (by apply api_reachable).
    unfold ret. eexists _, _. split; [reflexivity|]. wsimpl.
    exists l. split; [done|].
    unfold deref at 1. wsimpl. rewrite list_lookup_insert_eq by done.
    cbn [default]. apply lookup_insert_eq.
  - (* recipient_choice *)
    destruct Hready as [table Htable].
    destruct (Hcol eq_refl) as [rid Hrid].
    pose proof (iloc_row df i 1 row rid Hi Hrow Hrid) as Hiloc1.
    enough (∃ r w',
              recipient_choice env user_id (row_token Recipients i) w = (r, w')
              ∧ recorded Recipients user_id w w' name)
      as (r & w' & -> & HP) by exact HP.
    cbn [recorded].
    unfold recipient_choice.
    erewrite bind_done by (by apply api_reachable).
    rewrite navigate_none by done.
    unfold bind at 1, ctx at 1. wsimpl. rewrite Htable.
    unfold bind at 1, ret at 1.
    unfold bind at 1, write_excel at 1, modify at 1.
    unfold bind at 1, open_file at 1, bind at 1, get at 1, ret at 1.
    wsimpl. rewrite lookup_insert_eq. cbn [default].
    erewrite bind_done by (by apply api_reachable).
    erewrite bind_done by (by apply api_reachable).
    assert (Hskip : String.eqb (row_token Recipients i) "recipient_skip"
                    = false).
    { apply String.eqb_neq. intros E. rewrite E in Htok. discriminate. }
    rewrite Hskip. cbn [negb].
    unfold bind at 1. unfold bind at 1, lift at 1. rewrite Htok.
    unfold bind at 1, get at 1. wsimpl. rewrite Hslot.
    unfold bind at 1, ret at 1. unfold bind at 1, lift at 1. rewrite Hiloc.
    unfold bind at 1, lift at 1. rewrite Hiloc1.
    unfold try_except.
    set (w1 := log (send_document _ _ _) _).
    destruct (forward_to_recipient env user_id _ name rid w1)
      as [o w2] eqn:Hfwd.
    destruct (forward_to_recipient_log _ _ _ _ _ _ _ _ Hfwd)
      as (extra & Hsame & Hout & Hsent).
    destruct o as [[]|e].
    + unfold bind at 1, pop_session at 1, modify at 1.
      erewrite bind_done by (by apply api_reachable).
      unfold ret. eexists _, _. split; [reflexivity|].
      wsimpl. rewrite Hout. unfold w1. wsimpl.
      eexists. rewrite <- !app_assoc. split; [reflexivity|].
      left. specialize (Hsent () eq_refl).
      cbn [app]. rewrite !elem_of_cons, !elem_of_app. tauto.
    + rewrite api_reachable by done.
      unfold bind at 1, pop_session at 1, modify at 1.
      erewrite bind_done by (by apply api_reachable).
      unfold ret. eexists _, _. split; [reflexivity|].
      wsimpl. rewrite Hout. unfold w1. wsimpl.
      eexists. rewrite <- !app_assoc. split; [reflexivity|].
      right. cbn [app]. rewrite !elem_of_cons, !elem_of_app, !elem_of_cons.
      tauto.
Qed.

Lemma ready_repaged (k : Kind) (user_id : Z) (p1 p2 p3 : option Z)
    (w : World) :
  ready k user_id w → ready k user_id (repaged user_id p1 p2 p3 w).
Proof. destruct k; unfold ready, repaged; by wsimpl. Qed.

(** C10.  Processing the token of a valid row [i] of a loaded list records
    the display name of row [i] of the whole list (the store in the session,
    the colour in the draft, the recipient in the message about their copy),
    and it records the same name when the session's page indices are
    replaced by any others. *)
Theorem C10_selection_is_page_independent (k : Kind) (env : Env)
    (user_id : Z) (i : Z) (w : World) (df : DataFrame) (row : list string)
    (name : string) :
  reachable env user_id = true →
  slot k (excel_data w) = Some df →
  0 ≤ i → df !! Z.to_nat i = Some row → row !! 0%nat = Some name →
  (k = Recipients → is_Some (row !! 1%nat)) →
  ready k user_id w →
  recorded k user_id w (snd (choice k env user_id (row_token k i) w)) name
  ∧ ∀ p_stores p_colors p_recipients,
      let w2 := repaged user_id p_stores p_colors p_recipients w in
      recorded k user_id w2
        (snd (choice k env user_id (row_token k i) w2)) name.
Proof.
  intros Hr Hslot Hi Hrow Hname Hcol Hready. split.
  - by apply (selection_records k env user_id i w df row name).
  - intros p1 p2 p3 w2.
    apply (selection_records k env user_id i w2 df row name); try done.
    by apply ready_repaged.
Qed.

Lemma C10_selection_is_page_independent_witness :
  recorded Colors 1 Sample.at_color_menu
    (snd (choice Colors Sample.online 1 (row_token Colors 1)
                 Sample.at_color_menu)) "Blue"
  ∧ ∀ p_stores p_colors p_recipients,
      let w2 := repaged 1 p_stores p_colors p_recipients
                        Sample.at_color_menu in
      recorded Colors 1 w2
        (snd (choice Colors Sample.online 1 (row_token Colors 1) w2)) "Blue".
Proof.
  apply (C10_selection_is_page_independent Colors Sample.online 1 1
           Sample.at_color_menu (sheet1 Sample.workbook) ["Blue"] "Blue").
  - reflexivity.
  - reflexivity.
  - lia.
  - reflexivity.
  - reflexivity.
  - discriminate.
  - exists 0%nat. split; [reflexivity|]. vm_compute. lia.
Defined.

(** ** Frame rules

    A relation that is reflexive and transitive is kept by a handler as soon
    as the writes the handler makes keep it. *)

Section Frame.
Context (P : World → World → Prop).
Hypothesis P_refl : ∀ w, P w w.
Hypothesis P_trans : ∀ w1 w2 w3, P w1 w2 → P w2 w3 → P w1 w3.

Lemma preserves_ret {A} (a : A) : preserves P (ret a).
Proof. intros w. apply P_refl. Qed.

Lemma preserves_raise {A} (e : Exn) : preserves P (@raise A e).
Proof. intros w. apply P_refl. Qed.

Lemma preserves_lift {A} (o : Outcome A) : preserves P (lift o).
Proof. intros w. apply P_refl. Qed.

Lemma preserves_get : preserves P get.
Proof. intros w. apply P_refl. Qed.

Lemma preserves_ctx (user_id : Z) : preserves P (ctx user_id).
Proof. intros w. apply P_refl. Qed.

Lemma preserves_session (user_id : Z) : preserves P (session user_id).
Proof.
  intros w. unfold session.
  destruct (user_data_store w !! user_id); apply P_refl.
Qed.

Lemma preserves_bind {A B} (m : M A) (k : A → M B) :
  preserves P m → (∀ a, preserves P (k a)) → preserves P (bind m k).
Proof.
  intros Hm Hk w. unfold bind. specialize (Hm w).
  destruct (m w) as [[a|e] w1]; [|exact Hm].
  eapply P_trans; [exact Hm|apply Hk].
Qed.

Lemma preserves_try {A} (body handler : M A) :
  preserves P body → preserves P handler →
  preserves P (try_except body handler).
Proof.
  intros Hb Hh w. unfold try_except. specialize (Hb w).
  destruct (body w) as [[a|e] w1]; [exact Hb|].
  eapply P_trans; [exact Hb|apply Hh].
Qed.

Lemma preserves_modify (f : World → World) :
  (∀ w, P w (f w)) → preserves P (modify f).
Proof. intros Hf w. apply Hf. Qed.

Lemma preserves_new_dict (d : Product) :
  (∀ w, P w (set_heap (heap w ++ [d]) w)) → preserves P (new_dict d).
Proof. intros Hf w. apply Hf. Qed.

Lemma preserves_api (env : Env) (chat : Z) (e : Effect) :
  (∀ w, P w (log e w)) → preserves P (api env chat e).
Proof.
  intros Hf w. unfold api. destruct (reachable env chat);
    [apply Hf|apply P_refl].
Qed.
End Frame.

Section Returns.
Context {A : Type} (R : A → Prop).

Lemma returns_ret (a : A) : R a → returns (ret a) R.
Proof. intros Ha w a' w' [= <- _]. exact Ha. Qed.

Lemma returns_raise (e : Exn) : returns (@raise A e) R.
Proof. intros w a w' [=]. Qed.

Lemma returns_bind {B} (m : M B) (k : B → M A) :
  (∀ b, returns (k b) R) → returns (bind m k) R.
Proof.
  intros Hk w a w'. unfold bind.
  destruct (m w) as [[b|e] w1]; [apply Hk|intros [=]].
Qed.
End Returns.

Lemma bind_inv {A B} (m : M A) (k : A → M B) (w w' : World) (b : B) :
  bind m k w = (Done b, w') →
  ∃ a w1, m w = (Done a, w1) ∧ k a w1 = (Done b, w').
Proof.
  unfold bind. destruct (m w) as [[a|e] w1]; [eauto|intros [=]].
Qed.

Section FrameReads.
Context (P : World → World → Prop).
Hypothesis P_refl : ∀ w, P w w.
Hypothesis P_trans : ∀ w1 w2 w3, P w1 w2 → P w2 w3 → P w1 w3.

Lemma preserves_field (user_id : Z) (key : string) :
  preserves P (field user_id key).
Proof.
  unfold field. apply (preserves_bind P P_trans).
  - by apply preserves_session.
  - intros s. by apply preserves_lift.
Qed.

Lemma preserves_order_row (user_id : Z) (l : loc) :
  preserves P (order_row user_id l).
Proof.
  unfold order_row.
  repeat first
    [ apply preserves_field
    | apply (preserves_get P P_refl)
    | apply (preserves_lift P P_refl)
    | apply (preserves_ret P P_refl)
    | apply (preserves_bind P P_trans); [|intros ?] ].
Qed.

Lemma preserves_order_rows (user_id : Z) (ls : list loc) :
  preserves P (order_rows user_id ls).
Proof.
  induction ls as [|l ls IH]; cbn [order_rows].
  - by apply preserves_ret.
  - apply (preserves_bind P P_trans); [apply preserves_order_row|].
    intros row. apply (preserves_bind P P_trans); [exact IH|].
    intros rows. by apply preserves_ret.
Qed.
End FrameReads.

(** The helper operations a handler is made of. *)
Ltac frame_unfold :=
  unfold set_field, session_products, put_session, put_ctx, set_page,
    bump_page, the_current_product, set_current_product, set_product_field,
    init_products, append_product, unassigned_local, set_order_dataframe,
    write_excel, open_file, pop_session, load_excel_data, show_stores_page,
    show_colors_page, show_recipients_page, show_page, navigate,
    forward_to_recipient.

(** One step of a frame proof for the relation [P]; [side] proves that a
    single write, or a whole operation it knows, keeps [P]. *)
Ltac frame_step P Hr Ht side :=
  first
    [ solve [side]
    | apply (preserves_ret P Hr)
    | apply (preserves_raise P Hr)
    | apply (preserves_lift P Hr)
    | apply (preserves_get P Hr)
    | apply (preserves_ctx P Hr)
    | apply (preserves_session P Hr)
    | apply (preserves_field P Hr Ht)
    | apply (preserves_order_rows P Hr Ht)
    | apply (preserves_bind P Ht); [|intros ?]
    | apply (preserves_try P Ht)
    | apply (preserves_modify P); intros ?; side
    | apply (preserves_new_dict P); intros ?; side
    | apply (preserves_api P Hr); intros ?; side
    | progress frame_unfold
    | match goal with
      | |- preserves _ ?m =>
          match m with
          | context [if ?b then _ else _] => destruct b
          | context [match ?x with _ => _ end] => destruct x
          end
      end ].

Ltac frame P Hr Ht side := repeat frame_step P Hr Ht side.

(** Case analysis on the handler the conversation handler picks. *)
Ltac handler_cases env w u h Hfind :=
  intros env w u h Hfind;
  unfold find_handler in Hfind;
  destruct u as [user_id p]; cbn [effective_user payload] in *;
  destruct (conversations w !! user_id) as [s|] eqn:?;
  [ destruct s, p as [name|t|sizes|d];
    cbn [states fallbacks entry_points] in Hfind;
    repeat case_match; simplify_eq
  | destruct p as [name|t|sizes|d];
    cbn [states fallbacks entry_points] in Hfind;
    repeat case_match; simplify_eq ].

Ltac handler_unfold :=
  unfold start, process_name, store_choice, process_shop_id,
    process_owner_name, process_owner_phone, process_product_image,
    process_product_code, color_choice, process_badge_quantity,
    process_size_range, process_price, confirm_product, process_next_action,
    recipient_choice, cancel.

(** No handler writes the conversation table. *)
Lemma handlers_keep_conversations :
  ∀ env w u h, find_handler env w u = Some h →
    preserves (λ w w', conversations w' = conversations w) h.
Proof.
  handler_cases env w u h Hfind; handler_unfold;
    frame (λ w w', conversations w' = conversations w)
          (λ w, @eq_refl _ (conversations w))
          (λ (w1 w2 w3 : World) (H1 : conversations w2 = conversations w1)
             (H2 : conversations w3 = conversations w2), eq_trans H2 H1)
          ltac:(reflexivity).
Qed.

(** ** Cancelling *)

Lemma cancel_is_the_fallback (env : Env) (user_id : Z) (w : World)
    (s : State) :
  conversations w !! user_id = Some s →
  process_update env (mkUpdate user_id (Command "cancel")) w
  = handle user_id (cancel env user_id) w.
Proof.
  intros Hs. unfold process_update, find_handler. cbn [effective_user payload].
  rewrite Hs. by destruct s.
Qed.

(** C8 (as amended).  A cancel command received in any conversation state
    removes the user's entry from [user_data_store] (the collected answers
    and the accumulated products) and ends the conversation; the per-user
    context (the draft in progress, the page indices, the built order
    table), the heap of products, the cache and the files are left as they
    are. *)
Theorem C8_cancel_drops_the_store_entry (env : Env) (user_id : Z) (w : World)
    (s : State) :
  conversations w !! user_id = Some s →
  reachable env user_id = true →
  let w' := process_update env (mkUpdate user_id (Command "cancel")) w in
  conversations w' = delete user_id (conversations w)
  ∧ user_data_store w' = delete user_id (user_data_store w)
  ∧ user_data w' = user_data w
  ∧ heap w' = heap w
  ∧ excel_data w' = excel_data w
  ∧ files w' = files w
  ∧ outbox w'
    = (outbox w
       ++ [reply_text user_id
             "Operation cancelled. Type /start to begin again." NoMarkup])%list.
Proof.
  intros Hs Hr w'. unfold w'.
  rewrite (cancel_is_the_fallback env user_id w s Hs).
  assert (Hrun : ∃ w1, cancel env user_id w = (Done END, w1)
            ∧ w1 = log (reply_text user_id
                          "Operation cancelled. Type /start to begin again."
                          NoMarkup)
                       (set_user_data_store
                          (delete user_id (user_data_store w)) w)).
  { unfold cancel. unfold bind at 1, pop_session at 1, modify at 1.
    erewrite bind_done by (by apply api_reachable).
    unfold ret. eauto. }
  destruct Hrun as (w1 & Hrun & ->).
  unfold handle. rewrite Hrun. wsimpl. repeat split; reflexivity.
Qed.

Lemma C8_cancel_drops_the_store_entry_witness :
  let w' := process_update Sample.online (mkUpdate 1 (Command "cancel"))
              Sample.at_color_menu in
  conversations w' = delete 1 (conversations Sample.at_color_menu)
  ∧ user_data_store w' = delete 1 (user_data_store Sample.at_color_menu)
  ∧ user_data w' = user_data Sample.at_color_menu
  ∧ heap w' = heap Sample.at_color_menu
  ∧ excel_data w' = excel_data Sample.at_color_menu
  ∧ files w' = files Sample.at_color_menu
  ∧ outbox w'
    = (outbox Sample.at_color_menu
       ++ [reply_text 1
             "Operation cancelled. Type /start to begin again." NoMarkup])%list.
Proof.
  apply (C8_cancel_drops_the_store_entry Sample.online 1 Sample.at_color_menu
           PRODUCT_COLOR); reflexivity.
Defined.

(** C8 as stated fails: after a cancel at the colour menu the conversation
    and the store entry are gone, but the draft in progress is still the
    user's current product, with its image and code. *)
Lemma C8_cancel_keeps_the_draft :
  let w' := process_update Sample.online (mkUpdate 1 (Command "cancel"))
              Sample.at_color_menu in
  conversations w' !! 1 = None
  ∧ user_data_store w' !! 1 = None
  ∧ current_product (ctx_of w' 1) = Some 0%nat
  ∧ deref w' 0%nat !! "image_file_id" = Some "large"
  ∧ deref w' 0%nat !! "code" = Some "C1".
Proof. repeat split; vm_compute; reflexivity. Qed.

(** ** Navigation and selection in the conversation *)

Ltac returns_step :=
  first
    [ apply returns_ret
    | apply returns_raise
    | apply returns_bind; intros ?
    | progress unfold unassigned_local, navigate
    | match goal with
      | |- returns ?m _ =>
          match m with
          | context [if ?b then _ else _] => destruct b
          | context [match ?x with _ => _ end] => destruct x
          end
      end ].

Lemma handle_conversations (user_id : Z) (h : M Ret) (w : World) :
  preserves (λ w w', conversations w' = conversations w) h →
  conversations (handle user_id h w)
  = match fst (h w) with
    | Done (Goto s) => <[user_id := s]> (conversations w)
    | Done END => delete user_id (conversations w)
    | _ => conversations w
    end.
Proof.
  intros Hp. specialize (Hp w). unfold handle.
  destruct (h w) as [[[s| |]|e] w1]; cbn [fst snd] in *; wsimpl;
    by rewrite ?Hp.
Qed.

Lemma navigation_returns (k : Kind) (env : Env) (user_id : Z) (data : string) :
  data = prev_token k ∨ data = next_token k →
  returns (choice k env user_id data) (λ r, r = Goto (choice_state k)).
Proof.
  intros Hd.
  rewrite (choice_navigation k env user_id data
             (if decide (data = prev_token k) then -1 else 1)).
  - repeat returns_step. reflexivity.
  - destruct Hd as [->| ->]; [left|right].
    + by rewrite decide_True.
    + split; [done|]. rewrite decide_False; [done|].
      destruct k; discriminate.
Qed.

(** What a choice handler returns on data that is no navigation token, and
    what the data then is. *)
Lemma selection_returns (k : Kind) (env : Env) (user_id : Z) (data : string)
    (w w' : World) (r : Ret) :
  data ≠ prev_token k → data ≠ next_token k →
  choice k env user_id data w = (Done r, w') →
  r = match after_choice k with Some s => Goto s | None => END end
  ∧ ((∃ i, token_index data = Done i)
     ∨ (k = Recipients ∧ data = "recipient_skip")).
Proof.
  intros Hp Hn Hrun. split.
  - revert w r w' Hrun.
    change (returns (choice k env user_id data)
              (λ r, r = match after_choice k with
                        | Some s => Goto s
                        | None => END
                        end)).
    destruct k; cbn [choice after_choice];
      unfold store_choice, color_choice, recipient_choice;
      apply returns_bind; intros ?; rewrite navigate_none by done;
      repeat returns_step; reflexivity.
  - destruct k; cbn [choice] in Hrun;
      unfold store_choice, color_choice, recipient_choice in Hrun;
      apply bind_inv in Hrun as (? & w1 & _ & Hrun);
      rewrite navigate_none in Hrun by done.
    + apply bind_inv in Hrun as (i & ? & Hi & _).
      left. exists i. unfold lift in Hi. congruence.
    + apply bind_inv in Hrun as (i & ? & Hi & _).
      left. exists i. unfold lift in Hi. congruence.
    + destruct (String.eqb data "recipient_skip") eqn:Hskip.
      { right. split; [done|]. by apply String.eqb_eq. }
      left.
      do 6 (apply bind_inv in Hrun as (? & ? & _ & Hrun)).
      cbn [negb] in Hrun.
      apply bind_inv in Hrun as (? & ? & Hrun & _).
      apply bind_inv in Hrun as (i & ? & Hi & _).
      exists i. unfold lift in Hi. congruence.
Qed.

Lemma states_choice (k : Kind) (env : Env) (user_id : Z) (data : string) :
  states env (choice_state k) user_id (CallbackQuery data)
  = if Py.startswith (token k ++ "_") data
    then Some (choice k env user_id data) else None.
Proof. by destruct k. Qed.

Lemma states_choice_other (k : Kind) (env : Env) (user_id : Z) (p : Payload) :
  (∀ data, p ≠ CallbackQuery data) →
  states env (choice_state k) user_id p = None.
Proof. intros Hp. destruct k, p; try reflexivity; by destruct (Hp data). Qed.

Lemma cancel_returns (env : Env) (user_id : Z) :
  returns (cancel env user_id) (λ r, r = END).
Proof. unfold cancel. repeat returns_step. reflexivity. Qed.

(** What an update does to the conversation of a user who is at a menu. *)
Lemma process_update_at_menu (k : Kind) (env : Env) (user_id : Z) (w : World)
    (p : Payload) :
  conversations w !! user_id = Some (choice_state k) →
  process_update env (mkUpdate user_id p) w = w
  ∨ (p = Command "cancel"
     ∧ process_update env (mkUpdate user_id p) w
       = handle user_id (cancel env user_id) w)
  ∨ (∃ data, p = CallbackQuery data
             ∧ Py.startswith (token k ++ "_") data = true
             ∧ process_update env (mkUpdate user_id p) w
               = handle user_id (choice k env user_id data) w).
Proof.
  intros Hst. unfold process_update, find_handler.
  cbn [effective_user payload]. rewrite Hst.
  destruct p as [name|t|sizes|data].
  - rewrite states_choice_other by done. cbn [fallbacks].
    destruct (String.eqb name "cancel") eqn:E; [|by left].
    apply String.eqb_eq in E as ->. right. by left.
  - rewrite states_choice_other by done. by left.
  - rewrite states_choice_other by done. by left.
  - rewrite states_choice. cbn [fallbacks].
    destruct (Py.startswith (token k ++ "_") data) eqn:E; [|by left].
    right. right. by exists data.
Qed.

Lemma choice_keeps_conversations (k : Kind) (env : Env) (user_id : Z)
    (data : string) :
  preserves (λ w w', conversations w' = conversations w)
    (choice k env user_id data).
Proof.
  destruct k; cbn [choice]; handler_unfold;
    frame (λ w w', conversations w' = conversations w)
          (λ w, @eq_refl _ (conversations w))
          (λ (w1 w2 w3 : World) (H1 : conversations w2 = conversations w1)
             (H2 : conversations w3 = conversations w2), eq_trans H2 H1)
          ltac:(reflexivity).
Qed.

Lemma cancel_keeps_conversations (env : Env) (user_id : Z) :
  preserves (λ w w', conversations w' = conversations w) (cancel env user_id).
Proof.
  handler_unfold;
    frame (λ w w', conversations w' = conversations w)
          (λ w, @eq_refl _ (conversations w))
          (λ (w1 w2 w3 : World) (H1 : conversations w2 = conversations w1)
             (H2 : conversations w3 = conversations w2), eq_trans H2 H1)
          ltac:(reflexivity).
Qed.

(** C9.  At each of the three menus a navigation event leaves the
    conversation table as it is; and when an update does move the user out
    of the menu's state, it was either the cancel command (the conversation
    is over) or a selection: callback data of that list which is no
    navigation token and carries an index, or the recipients' skip action,
    after which the conversation is in the state that follows the menu. *)
Theorem C9_only_a_selection_advances (k : Kind) (env : Env) (user_id : Z)
    (w : World) (p : Payload) :
  conversations w !! user_id = Some (choice_state k) →
  let w' := process_update env (mkUpdate user_id p) w in
  (∀ data, p = CallbackQuery data →
           data = prev_token k ∨ data = next_token k →
           conversations w' = conversations w)
  ∧ (conversations w' !! user_id ≠ Some (choice_state k) →
     (p = Command "cancel" ∧ conversations w' !! user_id = None)
     ∨ (∃ data, p = CallbackQuery data ∧ selection k data
                ∧ conversations w' !! user_id = after_choice k)).
Proof.
  intros Hst w'. subst w'.
  destruct (process_update_at_menu k env user_id w p Hst)
    as [->|[[-> ->]|(data & -> & Hpre & ->)]].
  - split; [done|]. intros Hne. by destruct Hne.
  - split; [discriminate|]. intros Hne. left. split; [done|].
    revert Hne.
    rewrite handle_conversations by apply cancel_keeps_conversations.
    pose proof (cancel_returns env user_id w) as Hret.
    destruct (cancel env user_id w) as [[r|e] w1]; cbn [fst].
    + rewrite (Hret r w1 eq_refl). intros _. apply lookup_delete_eq.
    + intros Hne. by destruct Hne.
  - assert (Hnav : data = prev_token k ∨ data = next_token k →
              conversations (handle user_id (choice k env user_id data) w)
              = conversations w).
    { intros Hd.
      rewrite handle_conversations by apply choice_keeps_conversations.
      pose proof (navigation_returns k env user_id data Hd w) as Hret.
      destruct (choice k env user_id data w) as [[r|e] w1]; cbn [fst];
        [|done].
      rewrite (Hret r w1 eq_refl). by apply insert_id. }
    split; [by intros ? [= <-]|].
    intros Hne. right. exists data. split; [done|].
    destruct (decide (data = prev_token k)) as [Hp|Hp].
    { rewrite Hnav in Hne by auto. by destruct Hne. }
    destruct (decide (data = next_token k)) as [Hn|Hn].
    { rewrite Hnav in Hne by auto. by destruct Hne. }
    revert Hne.
    rewrite handle_conversations by apply choice_keeps_conversations.
    pose proof (selection_returns k env user_id data w) as Hsel.
    destruct (choice k env user_id data w) as [[r|e] w1]; cbn [fst].
    + destruct (Hsel w1 r Hp Hn eq_refl) as [-> Htok]. intros _.
      split; [by repeat split|].
      destruct k; cbn [after_choice];
        [apply lookup_insert_eq..|apply lookup_delete_eq].
    + intros Hne. by destruct Hne.
Qed.

Lemma C9_only_a_selection_advances_witness :
  let w' := process_update Sample.online
              (mkUpdate 1 (CallbackQuery "store_1")) Sample.at_store_menu in
  (∀ data, CallbackQuery "store_1" = CallbackQuery data →
           data = prev_token Stores ∨ data = next_token Stores →
           conversations w' = conversations Sample.at_store_menu)
  ∧ (conversations w' !! 1 ≠ Some (choice_state Stores) →
     (CallbackQuery "store_1" = Command "cancel"
      ∧ conversations w' !! 1 = None)
     ∨ (∃ data, CallbackQuery "store_1" = CallbackQuery data
                ∧ selection Stores data
                ∧ conversations w' !! 1 = after_choice Stores)).
Proof.
  apply (C9_only_a_selection_advances Stores Sample.online 1
           Sample.at_store_menu (CallbackQuery "store_1")).
  reflexivity.
Defined.

(** ** The finalize path *)

(** Building the order table reads only, and makes one row per product. *)
Lemma order_rows_spec (user_id : Z) (ps : list loc) (w : World) :
  snd (order_rows user_id ps w) = w
  ∧ ∀ rows, fst (order_rows user_id ps w) = Done rows →
            length rows = length ps.
Proof.
  induction ps as [|l ps [IHw IHr]]; cbn [order_rows].
  - split; [done|]. intros rows [= <-]. done.
  - assert (Hrow : snd (order_row user_id l w) = w).
    { apply (preserves_order_row (λ w w', w' = w)); [done|congruence]. }
    unfold bind.
    destruct (order_row user_id l w) as [[row|e] w1]; cbn [snd] in Hrow;
      subst w1; [|by split].
    destruct (order_rows user_id ps w) as [[rows|e] w1]; cbn [fst snd] in *;
      subst w1; [|by split].
    unfold ret. split; [done|]. intros rows' [= <-]. cbn [length].
    by rewrite (IHr rows eq_refl).
Qed.

Lemma order_rows_run (user_id : Z) (ps : list loc) (w : World) :
  order_rows user_id ps w = (order_table_of user_id ps w, w).
Proof.
  unfold order_table_of. pose proof (order_rows_spec user_id ps w) as [H _].
  destruct (order_rows user_id ps w). cbn [fst snd] in *. by subst.
Qed.


(** Run a handler on a symbolic world: unfold it down to the primitive
    reads and writes and split on everything it inspects. *)
Ltac exec_unfold :=
  handler_unfold;
  repeat progress frame_unfold;
  unfold field, bind, ret, raise, lift, get, modify, ctx, session, api,
    try_except, new_dict.

Ltac exec :=
  exec_unfold; wsimpl;
  repeat (first [rewrite order_rows_run | case_match];
          repeat match goal with
                 | H : order_rows _ _ _ = _ |- _ =>
                     rewrite order_rows_run in H
                 end;
          simplify_eq; wsimpl).



Lemma own_refl (user_id : Z) (w : World) : own user_id w w.
Proof. by split. Qed.

Lemma own_trans (user_id : Z) (w1 w2 w3 : World) :
  own user_id w1 w2 → own user_id w2 w3 → own user_id w1 w3.
Proof.
  intros [Hc1 Ho1] [Hc2 Ho2]. split; [congruence|].
  intros v Hv. destruct (Ho1 v Hv), (Ho2 v Hv). split; congruence.
Qed.



(** A single write of the handler run for [user_id] keeps [own]. *)
Ltac own_write :=
  split; [reflexivity|];
  let v := fresh "v" in
  let Hv := fresh "Hv" in
  intros v Hv; wsimpl; rewrite ?lookup_insert_ne, ?lookup_delete_ne by done;
  split; reflexivity.

(** Every handler writes only under the id of the user it runs for. *)
Lemma handlers_own :
  ∀ env w u h, find_handler env w u = Some h →
    preserves (own (effective_user u)) h.
Proof.
  handler_cases env w u h Hfind; cbn [effective_user]; handler_unfold;
    frame (own user_id) (own_refl user_id) (own_trans user_id)
          ltac:(own_write).
Qed.

























(** ** The product list *)

(** A confirmation appends the address of the current draft to the product
    list and makes a new, empty object the current draft. *)
Lemma confirm_yes_appends (env : Env) (user_id : Z) (w : World) (s : Session)
    (ps : list loc) (l : loc) :
  reachable env user_id = true →
  user_data_store w !! user_id = Some s →
  products s = Some ps →
  current_product (ctx_of w user_id) = Some l →
  ∃ w',
    confirm_product env user_id "confirm_yes" w = (Done (Goto NEXT_ACTION), w')
    ∧ user_data_store w'
      = <[user_id := mkSession (fields s) (Some (ps ++ [l])%list)]>
          (user_data_store w)
    ∧ current_product (ctx_of w' user_id) = Some (length (heap w))
    ∧ heap w' = (heap w ++ [∅])%list.
Proof.
  intros Hr Hs Hps Hl. unfold confirm_product.
  erewrite bind_done by (by apply api_reachable).
  cbn [String.eqb Ascii.eqb Bool.eqb].
  unfold bind at 1, init_products at 1, bind at 1, session at 1. wsimpl.
  rewrite Hs, Hps. unfold ret at 1.
  unfold bind at 1, the_current_product at 1, bind at 1, ctx at 1. wsimpl.
  rewrite Hl. unfold ret at 1.
  unfold bind at 1, append_product at 1, bind at 1, session at 1. wsimpl.
  rewrite Hs, Hps. unfold put_session at 1, modify at 1.
  unfold bind at 1, new_dict at 1.
  unfold bind at 1, set_current_product at 1, bind at 1, ctx at 1,
    put_ctx at 1, modify at 1.
  erewrite bind_done by (by apply api_reachable).
  erewrite bind_done by (by apply api_reachable).
  unfold ret. eexists. split; [reflexivity|]. wsimpl. by repeat split.
Qed.

(** *** Writes to the product list *)

Lemma no_append_refl (w : World) : no_append w w.
Proof. intros v. by left. Qed.

Lemma no_append_trans (w1 w2 w3 : World) :
  no_append w1 w2 → no_append w2 w3 → no_append w1 w3.
Proof.
  intros H12 H23 v. destruct (H23 v) as [E|E]; [rewrite E; apply H12|].
  by right.
Qed.

Lemma product_list_put (user_id v : Z) (s : Session) (w : World) :
  product_list
    (set_user_data_store (<[user_id := s]> (user_data_store w)) w) v
  = if decide (user_id = v) then Some (products s) else product_list w v.
Proof.
  unfold product_list. wsimpl. rewrite lookup_insert.
  by destruct (decide (user_id = v)).
Qed.

Lemma set_field_no_append (user_id : Z) (key value : string) :
  preserves no_append (set_field user_id key value).
Proof.
  intros w v. unfold set_field, bind, session, put_session, modify.
  destruct (user_data_store w !! user_id) as [s|] eqn:Hs; [|by left].
  cbn [snd]. rewrite product_list_put.
  destruct (decide (user_id = v)) as [<-|]; [|by left].
  left. unfold product_list. by rewrite Hs.
Qed.

Lemma init_products_no_append (user_id : Z) :
  preserves no_append (init_products user_id).
Proof.
  intros w v. unfold init_products, bind, session, put_session, modify, ret.
  destruct (user_data_store w !! user_id) as [s|] eqn:Hs; [|by left].
  destruct (products s); [by left|].
  cbn [snd]. rewrite product_list_put.
  destruct (decide (user_id = v)) as [<-|]; [|by left].
  by do 3 right.
Qed.

Lemma new_session_no_append (user_id : Z) :
  preserves no_append (put_session user_id session_empty).
Proof.
  intros w v. unfold put_session, modify. cbn [snd].
  rewrite product_list_put.
  destruct (decide (user_id = v)) as [<-|]; [|by left].
  right. right. by left.
Qed.

Lemma pop_session_no_append (user_id : Z) :
  preserves no_append (pop_session user_id).
Proof.
  intros w v. unfold pop_session, modify, product_list. wsimpl.
  destruct (decide (user_id = v)) as [<-|].
  - right. left. by rewrite lookup_delete_eq.
  - left. by rewrite lookup_delete_ne.
Qed.

(** What keeps the product lists: the four operations on the store above,
    and any write that is not to the store. *)
Ltac no_append_write :=
  first
    [ apply set_field_no_append
    | apply init_products_no_append
    | apply new_session_no_append
    | apply pop_session_no_append
    | let v := fresh "v" in intros v; left; reflexivity ].

(** Every handler but the confirmation leaves the product lists as they
    are, or removes or empties them: none appends. *)
Lemma handlers_no_append :
  ∀ env w u h, find_handler env w u = Some h →
    (conversations w !! effective_user u = Some CONFIRM_PRODUCT →
     ∃ name, payload u = Command name) →
    preserves no_append h.
Proof.
  handler_cases env w u h Hfind; cbn [effective_user payload];
    intros Hcmd;
    try (destruct (Hcmd eq_refl) as [? [=]]);
    handler_unfold;
    frame no_append no_append_refl no_append_trans ltac:(no_append_write).
Qed.

(** What the confirmation handler does to the user's entry in the store:
    nothing, or it makes a missing product list empty, or, on
    [confirm_yes], it puts the address of the current draft at the end of
    the list. *)
Lemma confirm_product_store (env : Env) (user_id : Z) (d : string)
    (w : World) (s : Session) :
  user_data_store w !! user_id = Some s →
  let w' := snd (confirm_product env user_id d w) in
  user_data_store w' !! user_id = Some s
  ∨ (products s = None
     ∧ user_data_store w' !! user_id = Some (mkSession (fields s) (Some [])))
  ∨ (d = "confirm_yes"
     ∧ ∃ l, current_product (ctx_of w user_id) = Some l
            ∧ user_data_store w' !! user_id
              = Some (mkSession (fields s)
                        (Some (default [] (products s) ++ [l])%list))).
Proof.
  cbn zeta. exec.
  all: intros ?.
  all: repeat match goal with
       | H : context [<[_ := _]> _ !! _] |- _ => rewrite lookup_insert_eq in H
       end.
  all: rewrite ?lookup_insert_eq.
  all: simplify_eq; cbn [fields products] in *.
  all: try (by left).
  all: try (right; left; by split).
  all: right; right; split; [by apply String.eqb_eq|].
  all: eexists; split; [done|].
  all: simplify_eq.
  all: match goal with H : products _ = _ |- _ => by rewrite H end.
Qed.

Lemma confirm_product_no_entry (env : Env) (user_id : Z) (d : string)
    (w : World) :
  user_data_store w !! user_id = None →
  user_data_store (snd (confirm_product env user_id d w)) !! user_id = None.
Proof. exec; done. Qed.

Lemma handle_product_list (user_id v : Z) (h : M Ret) (w : World) :
  product_list (handle user_id h w) v = product_list (snd (h w)) v.
Proof. unfold handle. by destruct (h w) as [[[s| |]|e] w1]. Qed.

(** The product lists over one update.  A list is kept, removed or emptied,
    unless the update is [confirm_yes] at the confirmation question: then
    the address of the user's current draft is put at the end of the user's
    list, and nothing else of the list changes. *)
Lemma products_grow_by_confirmation (env : Env) (u : Update) (w : World)
    (v : Z) :
  let w' := process_update env u w in
  product_list w' v = product_list w v
  ∨ product_list w' v = None
  ∨ product_list w' v = Some None
  ∨ product_list w' v = Some (Some [])
  ∨ (v = effective_user u
     ∧ conversations w !! v = Some CONFIRM_PRODUCT
     ∧ payload u = CallbackQuery "confirm_yes"
     ∧ ∃ s l, user_data_store w !! v = Some s
              ∧ current_product (ctx_of w v) = Some l
              ∧ product_list w' v
                = Some (Some (default [] (products s) ++ [l])%list)).
Proof.
  cbn zeta. unfold process_update.
  destruct (find_handler env w u) as [h|] eqn:Hfind; [|by left].
  rewrite handle_product_list.
  assert (Hcase :
    (conversations w !! effective_user u = Some CONFIRM_PRODUCT
     ∧ ∃ d, payload u = CallbackQuery d)
    ∨ (conversations w !! effective_user u = Some CONFIRM_PRODUCT →
       ∃ name, payload u = Command name)).
  { destruct (conversations w !! effective_user u) as [[]|] eqn:Hc;
      try (by right).
    destruct (payload u) as [name|t|p|d] eqn:Hp;
      [right; eauto| | |left; eauto].
    all: unfold find_handler in Hfind; rewrite Hc, Hp in Hfind.
    all: by cbn in Hfind. }
  destruct Hcase as [[Hc [d Hd]]|Hn].
  - destruct (decide (v = effective_user u)) as [->|Hv].
    + assert (h = confirm_product env (effective_user u) d) as ->.
      { unfold find_handler in Hfind. rewrite Hc, Hd in Hfind.
        cbn [states fallbacks] in Hfind.
        destruct (Py.startswith "confirm_" d || Py.startswith "edit_" d);
          by simplify_eq. }
      unfold product_list.
      destruct (user_data_store w !! effective_user u) as [s|] eqn:Hs.
      * destruct (confirm_product_store env _ d w s Hs)
          as [E|[[Hp E]|[-> [l [Hl E]]]]].
        -- left. by rewrite E.
        -- do 3 right. left. by rewrite E.
        -- do 4 right. repeat split; [done..|].
           exists s, l. by rewrite E.
      * left. by rewrite (confirm_product_no_entry env _ d w Hs).
    + left. unfold product_list.
      destruct (handlers_own env w u h Hfind w) as [_ Ho].
      by destruct (Ho v Hv) as [-> _].
  - destruct (handlers_no_append env w u h Hfind Hn w v) as [E|[E|[E|E]]];
      eauto 6.
Qed.

(** C4, at the failing input.  At the confirmation question the user
    rejects the draft and asks for a new product: [confirm_product] replaces
    the draft by an empty one and then raises [UnboundLocalError]
    ([reply_markup] is read in a branch that never assigns it), so the
    conversation stays in [CONFIRM_PRODUCT].  A confirmation received there
    appends the empty draft: the product list now ends in an entry that has
    none of the product fields. *)
Lemma C4_empty_draft_is_appended :
  let w0 := run [Sample.press 1 "confirm_no"] Sample.at_confirmation in
  let w1 := run [Sample.press 1 "edit_new"] w0 in
  let w2 := run [Sample.press 1 "confirm_yes"] w1 in
  conversations w0 !! 1 = Some CONFIRM_PRODUCT
  ∧ fst (confirm_product Sample.online 1 "edit_new" w0)
    = Raised UnboundLocalError
  ∧ conversations w1 !! 1 = Some CONFIRM_PRODUCT
  ∧ current_product (ctx_of w1 1) = Some 1%nat
  ∧ deref w1 1%nat = ∅
  ∧ (products <$> user_data_store w1 !! 1) = Some (Some [])
  ∧ conversations w2 !! 1 = Some NEXT_ACTION
  ∧ (products <$> user_data_store w2 !! 1) = Some (Some [1%nat])
  ∧ deref w2 1%nat = ∅
  ∧ ¬ complete (deref w2 1%nat).
Proof.
  repeat split; try (vm_compute; reflexivity).
  intros Hc. destruct (Hc "code") as [v Hv].
  - unfold product_keys. rewrite !elem_of_cons. tauto.
  - vm_compute in Hv. discriminate.
Qed.
